(** * kong: the help printer (help.go)

    A shallow embedding of [help.go] of the kong command-line parser and the
    properties of its help layout: the line buffer ([helpWriter]), the
    two-column table ([writeTwoColumns]), the flag formatter ([formatFlag],
    [writeFlags]) and the renderer ([printApp], [printCommand],
    [printNodeDetail], [DefaultHelpPrinter]).

    Go strings are byte strings: a [string] here is the sequence of its bytes,
    [len] counts bytes, and the functions of Go's [strings], [unicode/utf8] and
    [fmt] packages that the file calls are written out on bytes below. An [int]
    is a [Z]; the additions and subtractions of the source wrap at 64 bits. *)

From Stdlib Require Import ZArith NArith List Bool Ascii String Lia.
Import ListNotations.

Local Open Scope string_scope.
Local Open Scope list_scope.
Local Open Scope Z_scope.

Local Infix "+++" := String.append (at level 60, right associativity).

(** ** Machine integers *)

Module int.
(** Go's [int] on a 64-bit platform: two's complement wrap-around. *)
Definition wrap (z : Z) : Z := (z + 2 ^ 63) mod 2 ^ 64 - 2 ^ 63.
Definition add (a b : Z) : Z := wrap (a + b).
Definition sub (a b : Z) : Z := wrap (a - b).
Definition inRange (z : Z) : Prop := - 2 ^ 63 <= z < 2 ^ 63.
End int.

(** ** Bytes and UTF-8 *)

Definition byte (c : ascii) : N := N_of_ascii c.

Definition LF : ascii := "010"%char.
Definition nl : string := String LF "".

Module utf8.
Local Open Scope N_scope.

Definition cont (c : ascii) : bool := (128 <=? byte c) && (byte c <=? 191).
Definition between (lo hi : N) (c : ascii) : bool := (lo <=? byte c) && (byte c <=? hi).

(** Size in bytes of the rune decoded at the start of [s] (as
    [utf8.DecodeRuneInString]): a byte that does not start a well-formed
    sequence is one rune of size 1. 0 only for the empty string. *)
Definition runeLen (s : string) : nat :=
  match s with
  | "" => 0%nat
  | String c0 r0 =>
      let b0 := byte c0 in
      if b0 <? 128 then 1%nat
      else match r0 with
      | String c1 r1 =>
          if (194 <=? b0) && (b0 <=? 223) then (if cont c1 then 2 else 1)%nat
          else match r1 with
          | String c2 r2 =>
              let lo1 := if b0 =? 224 then 160 else 128 in
              let hi1 := if b0 =? 237 then 159 else 191 in
              if (224 <=? b0) && (b0 <=? 239) then
                (if between lo1 hi1 c1 && cont c2 then 3 else 1)%nat
              else match r2 with
              | String c3 _ =>
                  let lo1 := if b0 =? 240 then 144 else 128 in
                  let hi1 := if b0 =? 244 then 143 else 191 in
                  if (240 <=? b0) && (b0 <=? 244) then
                    (if between lo1 hi1 c1 && cont c2 && cont c3 then 4 else 1)%nat
                  else 1%nat
              | "" => 1%nat
              end
          | "" => 1%nat
          end
      | "" => 1%nat
      end
  end.

Fixpoint countFrom (skip : nat) (s : string) : nat :=
  match s with
  | "" => 0%nat
  | String _ r =>
      match skip with
      | S k => countFrom k r
      | O => S (countFrom (Nat.pred (runeLen s)) r)
      end
  end.

Definition RuneCountInString (s : string) : Z := Z.of_nat (countFrom 0 s).

Definition byteOf (n : Z) : ascii := ascii_of_N (Z.to_N n).

(** [utf8.EncodeRune], with the replacement character U+FFFD for what is
    not a Unicode scalar value. *)
Definition EncodeRune (r : Z) : string :=
  let str3 a b c := String (byteOf a) (String (byteOf b) (String (byteOf c) "")) in
  (if (r <? 0) || (1114111 <? r) || ((55296 <=? r) && (r <=? 57343)) then
     str3 239 191 189
   else if r <? 128 then String (byteOf r) ""
   else if r <? 2048 then
     String (byteOf (192 + r / 64)) (String (byteOf (128 + r mod 64)) "")
   else if r <? 65536 then
     str3 (224 + r / 4096) (128 + (r / 64) mod 64) (128 + r mod 64)
   else
     String (byteOf (240 + r / 262144))
       (str3 (128 + (r / 4096) mod 64) (128 + (r / 64) mod 64) (128 + r mod 64)))%Z.
End utf8.

Module unicode.
Local Open Scope N_scope.

Definition isASCIISpace (c : ascii) : bool :=
let b := byte c in
(b =? 9) || (b =? 10) || (b =? 11) || (b =? 12) || (b =? 13) || (b =? 32).

(** The test for the white-space runes of three bytes: U+1680,
    U+2000..U+200A, U+2028, U+2029, U+202F, U+205F and U+3000. *)
Definition space3 (b0 b1 b2 : N) : bool :=
  ((b0 =? 225) && (b1 =? 154) && (b2 =? 128))
  || ((b0 =? 226) && (b1 =? 128)
      && (((128 <=? b2) && (b2 <=? 138)) || (b2 =? 168) || (b2 =? 169) || (b2 =? 175)))
  || ((b0 =? 226) && (b1 =? 129) && (b2 =? 159))
  || ((b0 =? 227) && (b1 =? 128) && (b2 =? 128)).

(** Size in bytes of the white-space rune at the start of [s], 0 when [s]
    does not start with one. These are the runes of [unicode.IsSpace]: the
    ASCII ones, U+0085 and U+00A0 (two bytes) and those of [space3], in their
    UTF-8 encodings. *)
Definition spaceLen (s : string) : nat :=
  match s with
  | "" => 0%nat
  | String c0 r0 =>
      if isASCIISpace c0 then 1%nat
      else match r0 with
      | "" => 0%nat
      | String c1 r1 =>
          if (byte c0 =? 194) && ((byte c1 =? 133) || (byte c1 =? 160)) then 2%nat
          else match r1 with
          | "" => 0%nat
          | String c2 _ => if space3 (byte c0) (byte c1) (byte c2) then 3%nat else 0%nat
          end
      end
  end.
End unicode.

(** ** The [strings] package *)

Module strings.

Definition len (s : string) : Z := Z.of_nat (String.length s).

Fixpoint replicate (s : string) (n : nat) : string :=
  match n with
  | O => ""
  | S k => s +++ replicate s k
  end.

(** [strings.Repeat] panics on a negative count: [None]. A count that is
    not negative gives the repeated text: that Go cannot allocate a result of
    a size near the range of [int] is not part of the model, and no statement
    about the printer relies on such a count (in help.go the count is the
    label column, below 30, plus a padding of 4). *)
Definition Repeat (s : string) (count : Z) : option string :=
  if count <? 0 then None else Some (replicate s (Z.to_nat count)).

Fixpoint inSet (c : ascii) (cutset : string) : bool :=
  match cutset with
  | "" => false
  | String d r => Ascii.eqb c d || inSet c r
  end.

(** [strings.TrimRight] for a cutset of ASCII characters (the source uses
    [" "] and ["\n"]): the trailing bytes that belong to the cutset go. *)
Fixpoint TrimRight (s cutset : string) : string :=
  match s with
  | "" => ""
  | String c r =>
      match TrimRight r cutset with
      | "" => if inSet c cutset then "" else String c ""
      | r' => String c r'
      end
  end.

Fixpoint trimLeftSpace (skip : nat) (s : string) : string :=
  match s with
  | "" => ""
  | String _ r =>
      match skip with
      | S k => trimLeftSpace k r
      | O =>
          match unicode.spaceLen s with
          | O => s
          | S k => trimLeftSpace k r
          end
      end
  end.

Fixpoint trimRightSpace (s : string) : string :=
  match s with
  | "" => ""
  | String c r =>
      let t := String c (trimRightSpace r) in
      if Nat.eqb (unicode.spaceLen t) (String.length t) then "" else t
  end.

(** [strings.TrimSpace]: leading and trailing white-space runes go. *)
Definition TrimSpace (s : string) : string := trimRightSpace (trimLeftSpace 0 s).

(** [strings.Split] for a separator of one byte (the source splits at
    ["\n"] only). The result is never empty. *)
Fixpoint Split (s : string) (sep : ascii) : list string :=
  match s with
  | "" => [""]
  | String c r =>
      if Ascii.eqb c sep then "" :: Split r sep
      else match Split r sep with
           | [] => [String c ""]
           | h :: t => String c h :: t
           end
  end.

Fixpoint Join (a : list string) (sep : string) : string :=
  match a with
  | [] => ""
  | [x] => x
  | x :: r => x +++ sep +++ Join r sep
  end.

Definition flush (cur : string) : list string :=
  match cur with "" => [] | _ => [cur] end.

(** [fieldsFrom skip cur s]: [cur] is the field being read, [skip] the
    bytes of a white-space rune still to pass over. *)
Fixpoint fieldsFrom (skip : nat) (cur : string) (s : string) : list string :=
  match s with
  | "" => flush cur
  | String c r =>
      match skip with
      | S k => fieldsFrom k cur r
      | O =>
          match unicode.spaceLen s with
          | O => fieldsFrom 0 (cur +++ String c "") r
          | S k => flush cur ++ fieldsFrom k "" r
          end
      end
  end.

(** [strings.Fields]: the maximal runs of bytes between white-space runes. *)
Definition Fields (s : string) : list string := fieldsFrom 0 "" s.

End strings.

(** ** The [fmt] verbs the file uses *)

Module fmt.
Definition tooLarge (x : Z) : bool := (1000000 <? x) || (x <? -1000000).

(** [Sprintf("%*s", wid, s)], and with [minus] [Sprintf("%-*s", wid, s)]:
    padding counts runes; a negative width pads on the right; a width over
    a million is refused with the bad-width marker. *)
Definition padS (minus : bool) (wid : Z) (s : string) : string :=
  if tooLarge wid then "%!(BADWIDTH)" +++ s
  else
    let n := Z.to_nat (Z.abs wid - utf8.RuneCountInString s) in
    if minus || (wid <? 0) then s +++ strings.replicate " " n
    else strings.replicate " " n +++ s.

(** [Sprintf("%c", r)] *)
Definition verbC (r : Z) : string := utf8.EncodeRune r.
End fmt.

(** ** The command model

    The model types ([Node], [Flag], [Positional], [Application], [Context])
    are declared in other files of the package; help.go reads them through
    fields and accessor methods only. *)

Module HelpPrinterOptions.
(** [Summary]: write a one-line summary of the context. [Compact]: write
    help in a more compact form, but still fully specified. *)
Record t : Type := mk { Summary : bool; Compact : bool }.
End HelpPrinterOptions.

Module Positional.
(** Modelled from the spec: the type [Positional] is declared outside
    help.go; "a named argument slot. Attributes: summary form (name + value
    hint), help text". [Summary] is the result of [arg.Summary()]. *)
Record t : Type := mk { Summary : string; Help : string }.
End Positional.

Module Flag.
(** Modelled from the spec: the type [Flag] is declared outside help.go;
    "long name, optional single-character short name, boolean-ness, a
    placeholder string for its value when non-boolean, help text, hidden
    flag". [Short] is a rune, 0 when the flag has no short form; [IsBool]
    and [FormatPlaceHolder] are the results of the methods of these names. *)
Record t : Type := mk {
  Name : string;
  Short : Z;
  Help : string;
  Hidden : bool;
  IsBool : bool;
  FormatPlaceHolder : string
}.
End Flag.

Module Node.
(** Modelled from the spec: the type [Node] (and [Command], the same type)
    is declared outside help.go; "display name, free-text help, list of
    positional arguments, list of flags (possibly grouped), list of child
    command nodes, a summary string, a dotted path string". [AllFlags],
    [Leaves], [Summary] and [Path] are the results of the methods of these
    names. *)
#[warnings="-register-all"] Inductive t : Type := mk {
  Name : string;
  Help : string;
  Positional : list Positional.t;
  AllFlags : list (list Flag.t);
  Leaves : list t;
  Summary : string;
  Path : string
}.
End Node.

Module Application.
(** Modelled from the spec: "the root Node, plus a process name".
    help.go takes [&app.Node]; [app.Summary()] and [app.Leaves()] are the
    methods of the embedded node. *)
Record t : Type := mk { Node : Node.t; Name : string }.
Definition Summary (app : t) : string := Node.Summary (Node app).
Definition Leaves (app : t) : list Node.t := Node.Leaves (Node app).
End Application.

Module Kong.
Record t (W : Type) : Type := mk { Model : Application.t; Stdout : W }.
Arguments mk {W}.
Arguments Model {W}.
Arguments Stdout {W}.
End Kong.

Module Context.
(** Modelled from the spec: "wraps the Application, the currently selected
    Node (nil if none), and whether the model is empty (no commands defined
    at all)". [Selected] and [Empty] are the results of [ctx.Selected()] and
    [ctx.Empty()]. *)
Record t (W : Type) : Type := mk {
  App : Kong.t W;
  Selected : option Node.t;
  Empty : bool
}.
Arguments mk {W}.
Arguments App {W}.
Arguments Selected {W}.
Arguments Empty {W}.
End Context.

(** [io.Writer], through [io.WriteString]: one call changes the sink and
    reports an error or none. *)
Class Writer (W E : Type) : Type := WriteString : W -> string -> W * option E.

(** ** The line store and the printing monad

    Every [helpWriter] of one render points to the same slice of lines
    ([lines *[]string]): the views made by [Indent] differ in indent and
    width and append to one store. The store is the state of the monad; a
    run-time panic of the Go code is [None]. *)

Definition M (A : Type) : Type := list string -> option (A * list string).

Definition ret {A} (a : A) : M A := fun lines => Some (a, lines).

Definition bind {A B} (m : M A) (k : A -> M B) : M B :=
  fun lines =>
    match m lines with
    | Some (a, lines') => k a lines'
    | None => None
    end.

Definition panic {A} : M A := fun _ => None.

Declare Scope help_scope.
Delimit Scope help_scope with help.
Notation "x <- c ;; k" := (bind c (fun x => k))
  (at level 61, c at next level, right associativity) : help_scope.
Notation "c ;; k" := (bind c (fun _ => k))
  (at level 61, right associativity) : help_scope.
Local Open Scope help_scope.

(** [for i, x := range l { f i x }], the index starting at [i]. *)
Fixpoint forRange {A} (f : nat -> A -> M unit) (i : nat) (l : list A) : M unit :=
  match l with
  | [] => ret tt
  | x :: r => f i x ;; forRange f (S i) r
  end.

(** [for _, x := range l { f x }] *)
Definition forEach {A} (f : A -> M unit) (l : list A) : M unit :=
  forRange (fun _ => f) 0 l.

Definition defaultIndent : Z := 2.
Definition defaultColumnPadding : Z := 4.

(** The double quote of the hint lines. *)
Definition dq : string := String "034"%char "".

Record helpWriter : Type := mkHelpWriter {
  indent : string;
  width : Z;
  options : HelpPrinterOptions.t
}.

(** The line [Print] stores: [strings.TrimRight(h.indent+text, " ")]. *)
Definition lineOf (h : helpWriter) (text : string) : string :=
  strings.TrimRight (indent h +++ text) " ".

Definition Print (h : helpWriter) (text : string) : M unit :=
  fun lines => Some (tt, lines ++ [lineOf h text]).

Definition Indent (h : helpWriter) : helpWriter :=
  {| indent := indent h +++ "  ";
     width := int.sub (width h) 2;
     options := options h |}.

(** [helpWriter.String] *)
Definition String_ (lines : list string) : string := strings.Join lines nl.

(** haveShort will be true if there are short flags present at all in the
    help. Useful for column alignment. *)
Definition formatFlag (haveShort : bool) (flag : Flag.t) : string :=
  let flagString := "" in
  let name := Flag.Name flag in
  let isBool := Flag.IsBool flag in
  let flagString :=
    if negb (Flag.Short flag =? 0) then
      flagString +++ ("-" +++ fmt.verbC (Flag.Short flag) +++ ", --" +++ name)
    else if haveShort then flagString +++ ("    --" +++ name)
    else flagString +++ ("--" +++ name) in
  if negb isBool then flagString +++ ("=" +++ Flag.FormatPlaceHolder flag)
  else flagString.

Definition hasShort (flag : Flag.t) : bool := negb (Flag.Short flag =? 0).

(** The inner loop of the first pass of [writeFlags]: stops at the first
    flag of the group that has a short form. *)
Fixpoint groupHasShort (group : list Flag.t) : bool :=
  match group with
  | [] => false
  | flag :: r => if hasShort flag then true else groupHasShort r
  end.

(** The first pass of [writeFlags]. *)
Definition haveShortOf (groups : list (list Flag.t)) : bool :=
  fold_left (fun haveShort group => if groupHasShort group then true else haveShort)
            groups false.

Definition row : Type := (string * string)%type.

(** The second pass of [writeFlags], from group index [i] on. *)
Fixpoint flagRowsFrom (haveShort : bool) (i : nat) (groups : list (list Flag.t))
    (rows : list row) : list row :=
  match groups with
  | [] => rows
  | group :: rest =>
      let rows := if (0 <? i)%nat then rows ++ [("", "")] else rows in
      let rows :=
        fold_left (fun rows flag =>
                     if negb (Flag.Hidden flag)
                     then rows ++ [(formatFlag haveShort flag, Flag.Help flag)]
                     else rows) group rows in
      flagRowsFrom haveShort (S i) rest rows
  end.

Definition flagRows (groups : list (list Flag.t)) : list row :=
  flagRowsFrom (haveShortOf groups) 0 groups [].

(** The body of the first loop of [writeTwoColumns]. *)
Definition leftStep (leftSize : Z) (r : row) : Z :=
  let c := strings.len (fst r) in
  if (leftSize <? c) && (c <? 30) then c else leftSize.

(** The first loop of [writeTwoColumns]: find size of first column. *)
Definition leftSizeOf (rows : list row) : Z := fold_left leftStep rows 0.

Section Printer.

(** [doc.ToText(w, text, indent, preIndent, width)] of Go's standard library
    ([go/doc]), as the text it writes to [w]. *)
Variable ToText : string -> string -> string -> Z -> string.

Definition Wrap (h : helpWriter) (text : string) : M unit :=
  let w := ToText (strings.TrimSpace text) "" "    " (width h) in
  forEach (Print h) (strings.Split (strings.TrimSpace w) LF).

(** The body of the second loop of [writeTwoColumns]. *)
Definition writeRow (w : helpWriter) (padding leftSize : Z) (offsetStr : string)
    (r : row) : M unit :=
  pre <- (match strings.Repeat " " defaultIndent with
          | Some s => ret s
          | None => panic
          end) ;;
  let buf := ToText (snd r) "" pre (int.sub (int.sub (width w) leftSize) padding) in
  let lines := strings.Split (strings.TrimRight buf nl) LF in
  let line := fmt.padS true leftSize (fst r) in
  if strings.len (fst r) <? 30 then
    match lines with
    | [] => panic
    | l0 :: rest =>
        Print w (line +++ fmt.padS false padding "" +++ l0) ;;
        forEach (fun line => Print w (offsetStr +++ line)) rest
    end
  else
    Print w line ;;
    forEach (fun line => Print w (offsetStr +++ line)) lines.

Definition writeTwoColumns (w : helpWriter) (padding : Z) (rows : list row) : M unit :=
  let leftSize := leftSizeOf rows in
  match strings.Repeat " " (int.add leftSize padding) with
  | None => panic
  | Some offsetStr => forEach (writeRow w padding leftSize offsetStr) rows
  end.

Definition writePositionals (w : helpWriter) (args : list Positional.t) : M unit :=
  writeTwoColumns w defaultColumnPadding
    (map (fun arg => (Positional.Summary arg, Positional.Help arg)) args).

Definition writeFlags (w : helpWriter) (groups : list (list Flag.t)) : M unit :=
  writeTwoColumns w defaultColumnPadding (flagRows groups).

Definition printCommandSummary (w : helpWriter) (cmd : Node.t) : M unit :=
  Print w (Node.Summary cmd) ;;
  if negb (String.eqb (Node.Help cmd) "") then Wrap (Indent w) (Node.Help cmd)
  else ret tt.

Definition printNodeDetail (w : helpWriter) (node : Node.t) : M unit :=
  (if negb (String.eqb (Node.Help node) "") then
     Print w "" ;; Wrap w (Node.Help node)
   else ret tt) ;;
  if HelpPrinterOptions.Summary (options w) then ret tt
  else
    (if (0 <? List.length (Node.Positional node))%nat then
       Print w "" ;;
       Print w "Arguments:" ;;
       writePositionals (Indent w) (Node.Positional node)
     else ret tt) ;;
    (let flags := Node.AllFlags node in
     if (0 <? List.length flags)%nat then
       Print w "" ;;
       Print w "Flags:" ;;
       writeFlags (Indent w) flags
     else ret tt) ;;
    let cmds := Node.Leaves node in
    if (0 <? List.length cmds)%nat then
      Print w "" ;;
      Print w "Commands:" ;;
      let iw := Indent w in
      if HelpPrinterOptions.Compact (options w) then
        writeTwoColumns iw defaultColumnPadding
          (map (fun cmd => (Node.Path cmd, Node.Help cmd)) cmds)
      else
        forRange (fun i cmd =>
                    printCommandSummary iw cmd ;;
                    if negb (Z.of_nat i =? Z.of_nat (List.length cmds) - 1)
                    then Print iw "" else ret tt) 0 cmds
    else ret tt.

Definition printApp (w : helpWriter) (app : Application.t) : M unit :=
  Print w ("Usage:  " +++ Application.Summary app) ;;
  printNodeDetail w (Application.Node app) ;;
  let cmds := Application.Leaves app in
  if (0 <? List.length cmds)%nat then
    Print w "" ;;
    if HelpPrinterOptions.Summary (options w) then
      Print w ("Run " +++ dq +++ Application.Name app +++ " --help" +++ dq
               +++ " for more information.")
    else
      Print w ("Run " +++ dq +++ Application.Name app +++ " <command> --help" +++ dq
               +++ " for more information on a command.")
  else ret tt.

Definition printCommand (w : helpWriter) (app : Application.t) (cmd : Node.t) : M unit :=
  Print w ("Usage:  " +++ Application.Name app +++ " " +++ Node.Summary cmd) ;;
  printNodeDetail w cmd ;;
  if HelpPrinterOptions.Summary (options w) then
    Print w "" ;;
    Print w ("Run " +++ dq +++ Application.Name app +++ " " +++ Node.Path cmd
             +++ " --help" +++ dq +++ " for more information.")
  else ret tt.

Section Render.

Context {W E : Type} `{Writer W E}.

(** [guessWidth] is declared in another file of the package: the terminal
    width of the sink. *)
Variable guessWidth : W -> Z.

Definition newHelpWriter (ctx : Context.t W) (options : HelpPrinterOptions.t)
    : helpWriter :=
  {| indent := ""; width := guessWidth (Kong.Stdout (Context.App ctx));
     options := options |}.

(** [helpWriter.Write]: the loop returns at the first error. *)
Fixpoint Write (lines : list string) (w : W) : W * option E :=
  match lines with
  | [] => (w, None)
  | line :: rest =>
      match WriteString w (line +++ nl) with
      | (w', Some err) => (w', Some err)
      | (w', None) => Write rest w'
      end
  end.

(** [if ctx.Empty() { options.Summary = false }] *)
Definition effective (options : HelpPrinterOptions.t) (ctx : Context.t W)
    : HelpPrinterOptions.t :=
  if Context.Empty ctx
  then HelpPrinterOptions.mk false (HelpPrinterOptions.Compact options)
  else options.

(** The lines a render accumulates before they are written out. *)
Definition helpLines (options : HelpPrinterOptions.t) (ctx : Context.t W)
    : option (list string) :=
  let options := effective options ctx in
  let w := newHelpWriter ctx options in
  let selected := Context.Selected ctx in
  match (match selected with
         | None => printApp w (Kong.Model (Context.App ctx))
         | Some cmd => printCommand w (Kong.Model (Context.App ctx)) cmd
         end) [] with
  | Some (_, lines) => Some lines
  | None => None
  end.

(** [DefaultHelpPrinter]: the sink after the render and the error returned;
    [None] if the render panics. *)
Definition DefaultHelpPrinter (options : HelpPrinterOptions.t) (ctx : Context.t W)
    : option (W * option E) :=
  match helpLines options ctx with
  | Some lines => Some (Write lines (Kong.Stdout (Context.App ctx)))
  | None => None
  end.

End Render.

End Printer.

(** ** The text wrapper of [go/doc]

    [doc.ToText] belongs to Go's standard library, not to this package, and
    the general facts about the printer are proved for any [ToText]. The
    module below only serves to run the printer on small texts. It is the
    paragraph printer of the Go releases up to 1.18 (the file dates from
    2018), the [lineWrapper], applied to a text that is one paragraph of
    plain words: [write] followed by [flush]. Blank lines between
    paragraphs, headings, preformatted lines (hence [preIndent]) and the
    conversion of quotes are outside it, and so are the releases from 1.19,
    whose printer differs on other inputs: there a negative width stands for
    no limit and a width of 0 for 80 runes. *)

Module doc.

Record lineWrapper : Type := mkLineWrapper {
  out : string;
  printed : bool;
  width : Z;
  indent : string;
  n : Z;
  pendSpace : Z
}.

(** The body of the loop of [lineWrapper.write], for one field [f]. *)
Definition writeField (l : lineWrapper) (f : string) : lineWrapper :=
  let w := utf8.RuneCountInString f in
  (* wrap if line is too long *)
  let l :=
    if (0 <? n l) && (width l <? n l + pendSpace l + w)
    then mkLineWrapper (out l +++ nl) (printed l) (width l) (indent l) 0 0
    else l in
  let l :=
    if n l =? 0
    then mkLineWrapper (out l +++ indent l) (printed l) (width l) (indent l) (n l)
           (pendSpace l)
    else l in
  mkLineWrapper (out l +++ (if 0 <? pendSpace l then " " else "") +++ f)
    (printed l) (width l) (indent l) (n l + pendSpace l + w) 1.

Definition write (l : lineWrapper) (text : string) : lineWrapper :=
  let l :=
    if (n l =? 0) && printed l
    then mkLineWrapper (out l +++ nl) (printed l) (width l) (indent l) (n l) (pendSpace l)
    else l in
  let l := mkLineWrapper (out l) true (width l) (indent l) (n l) (pendSpace l) in
  fold_left writeField (strings.Fields text) l.

Definition flush (l : lineWrapper) : lineWrapper :=
  if n l =? 0 then l
  else mkLineWrapper (out l +++ nl) (printed l) (width l) (indent l) 0 0.

Definition ToText (text indent preIndent : string) (width : Z) : string :=
  out (flush (write (mkLineWrapper "" false width indent 0 0) text)).

End doc.

(** ** The lines of a render, read off the printing functions

    What each printing function appends to the store, as a list. The lemmas
    of the next part show that the functions above append exactly these. *)

Section Lines.

Variable ToText : string -> string -> string -> Z -> string.

Definition wrapLines (h : helpWriter) (text : string) : list string :=
  map (lineOf h)
      (strings.Split
         (strings.TrimSpace (ToText (strings.TrimSpace text) "" "    " (width h))) LF).

Definition rowLines (w : helpWriter) (padding leftSize : Z) (offsetStr : string)
    (r : row) : list string :=
  let buf := ToText (snd r) "" "  " (int.sub (int.sub (width w) leftSize) padding) in
  let lines := strings.Split (strings.TrimRight buf nl) LF in
  let line := fmt.padS true leftSize (fst r) in
  if strings.len (fst r) <? 30 then
    match lines with
    | [] => []
    | l0 :: rest =>
        lineOf w (line +++ fmt.padS false padding "" +++ l0)
        :: map (fun l => lineOf w (offsetStr +++ l)) rest
    end
  else lineOf w line :: map (fun l => lineOf w (offsetStr +++ l)) lines.

Definition tableLines (w : helpWriter) (padding : Z) (rows : list row) : list string :=
  let leftSize := leftSizeOf rows in
  flat_map (rowLines w padding leftSize
              (strings.replicate " " (Z.to_nat (int.add leftSize padding)))) rows.

Definition helpBlock (w : helpWriter) (node : Node.t) : list string :=
  if String.eqb (Node.Help node) "" then []
  else lineOf w "" :: wrapLines w (Node.Help node).

Definition argumentsBlock (w : helpWriter) (node : Node.t) : list string :=
  match Node.Positional node with
  | [] => []
  | args =>
      lineOf w "" :: lineOf w "Arguments:"
      :: tableLines (Indent w) defaultColumnPadding
           (map (fun arg => (Positional.Summary arg, Positional.Help arg)) args)
  end.

Definition flagsBlock (w : helpWriter) (node : Node.t) : list string :=
  match Node.AllFlags node with
  | [] => []
  | groups =>
      lineOf w "" :: lineOf w "Flags:"
      :: tableLines (Indent w) defaultColumnPadding (flagRows groups)
  end.

Definition commandLines (w : helpWriter) (cmd : Node.t) : list string :=
  lineOf w (Node.Summary cmd)
  :: (if String.eqb (Node.Help cmd) "" then [] else wrapLines (Indent w) (Node.Help cmd)).

(** One block per command, a blank line between two blocks. *)
Fixpoint commandBlocks (w : helpWriter) (cmds : list Node.t) : list string :=
  match cmds with
  | [] => []
  | [cmd] => commandLines w cmd
  | cmd :: rest => commandLines w cmd ++ lineOf w "" :: commandBlocks w rest
  end.

Definition commandsBlock (w : helpWriter) (node : Node.t) : list string :=
  match Node.Leaves node with
  | [] => []
  | cmds =>
      lineOf w "" :: lineOf w "Commands:"
      :: (if HelpPrinterOptions.Compact (options w)
          then tableLines (Indent w) defaultColumnPadding
                 (map (fun cmd => (Node.Path cmd, Node.Help cmd)) cmds)
          else commandBlocks (Indent w) cmds)
  end.

Definition detailLines (w : helpWriter) (node : Node.t) : list string :=
  helpBlock w node
  ++ (if HelpPrinterOptions.Summary (options w) then []
      else argumentsBlock w node ++ flagsBlock w node ++ commandsBlock w node).

Definition appHint (w : helpWriter) (app : Application.t) : list string :=
  match Application.Leaves app with
  | [] => []
  | _ =>
      [lineOf w "";
       lineOf w
         (if HelpPrinterOptions.Summary (options w)
          then "Run " +++ dq +++ Application.Name app +++ " --help" +++ dq
               +++ " for more information."
          else "Run " +++ dq +++ Application.Name app +++ " <command> --help" +++ dq
               +++ " for more information on a command.")]
  end.

Definition appLines (w : helpWriter) (app : Application.t) : list string :=
  lineOf w ("Usage:  " +++ Application.Summary app)
  :: detailLines w (Application.Node app) ++ appHint w app.

Definition commandHint (w : helpWriter) (app : Application.t) (cmd : Node.t)
    : list string :=
  if HelpPrinterOptions.Summary (options w) then
    [lineOf w "";
     lineOf w ("Run " +++ dq +++ Application.Name app +++ " " +++ Node.Path cmd
               +++ " --help" +++ dq +++ " for more information.")]
  else [].

Definition commandPageLines (w : helpWriter) (app : Application.t) (cmd : Node.t)
    : list string :=
  lineOf w ("Usage:  " +++ Application.Name app +++ " " +++ Node.Summary cmd)
  :: detailLines w cmd ++ commandHint w app cmd.

End Lines.

(** The rows of the flag table, group by group: the visible flags of a
    group, and a separator row before every group but the first. *)
Definition visibleRows (haveShort : bool) (group : list Flag.t) : list row :=
  map (fun flag => (formatFlag haveShort flag, Flag.Help flag))
      (filter (fun flag => negb (Flag.Hidden flag)) group).

Definition rowsOfGroups (haveShort : bool) (groups : list (list Flag.t)) : list row :=
  match groups with
  | [] => []
  | group :: rest =>
      visibleRows haveShort group
      ++ flat_map (fun g => ("", "") :: visibleRows haveShort g) rest
  end.

(** The column width in the words of the specification: the maximum label
    length among the labels shorter than the cutoff of 30, 0 without one. *)
Definition maxLabelBelowCutoff (rows : list row) : Z :=
  fold_right Z.max 0
    (filter (fun c => c <? 30) (map (fun r : row => strings.len (fst r)) rows)).

(** What follows the long name of a flag: [=<placeholder>] unless boolean. *)
Definition valueSuffix (flag : Flag.t) : string :=
  if Flag.IsBool flag then "" else "=" +++ Flag.FormatPlaceHolder flag.

(** A line ends in white space when trimming white space on the right
    changes it. *)
Definition endsInWhitespace (s : string) : bool :=
  negb (String.eqb (strings.trimRightSpace s) s).

(** A line ends in the space character U+0020. *)
Fixpoint endsInSpace (s : string) : bool :=
  match s with
  | "" => false
  | String c "" => Ascii.eqb c " "
  | String _ r => endsInSpace r
  end.

(** A text of one line: no line feed in it. *)
Fixpoint oneLine (s : string) : bool :=
  match s with
  | "" => true
  | String c r => negb (Ascii.eqb c LF) && oneLine r
  end.

(** Operations on the line buffer, each through the view reached from the
    base writer by [depth] calls of [Indent]; [Printf] is [Print] of the
    formatted text. *)
Inductive bufferOp : Type :=
| OpPrint (depth : nat) (text : string)
| OpWrap (depth : nat) (text : string).

Definition view (w : helpWriter) (depth : nat) : helpWriter := Nat.iter depth Indent w.

Definition runOp (ToText : string -> string -> string -> Z -> string) (w : helpWriter)
    (op : bufferOp) : M unit :=
  match op with
  | OpPrint depth text => Print (view w depth) text
  | OpWrap depth text => Wrap ToText (view w depth) text
  end.

Definition runOps (ToText : string -> string -> string -> Z -> string) (w : helpWriter)
    (ops : list bufferOp) : M unit :=
  forEach (runOp ToText w) ops.

(** ** Sinks *)

(** Whether the writes of [texts], in order from sink [w], all succeed, and
    the sink after them. *)
Fixpoint allWritten {W E} `{Writer W E} (w : W) (texts : list string) : Prop :=
  match texts with
  | [] => True
  | t :: rest => snd (WriteString w t) = None /\ allWritten (fst (WriteString w t)) rest
  end.

Definition after {W E} `{Writer W E} (w : W) (texts : list string) : W :=
  fold_left (fun w t => fst (WriteString w t)) texts w.

(** A sink that records the texts it accepts and fails, with [tt], once its
    budget of writes is used up. *)
Record budgetSink : Type := mkBudgetSink { budget : nat; written : list string }.

#[export] Instance budgetSinkWriter : Writer budgetSink unit :=
  fun w s =>
    match budget w with
    | O => (w, Some tt)
    | S k => (mkBudgetSink k (written w ++ [s]), None)
    end.

(** ** Example models *)

Definition noWidth : budgetSink -> Z := fun _ => 80.

Definition verboseFlag : Flag.t :=
  Flag.mk "verbose" 118 "enable verbose output" false true "".

Definition flagsApp : Application.t :=
  Application.mk (Node.mk "app" "" [] [[verboseFlag]] [] "app [flags]" "") "app".

Definition buildCmd : Node.t := Node.mk "build" "Build the project" [] [] [] "build" "build".
Definition testCmd : Node.t := Node.mk "test" "Run tests" [] [] [] "test" "test".

Definition toolApp : Application.t :=
  Application.mk
    (Node.mk "tool" "Manages things." [] [] [buildCmd; testCmd] "tool <command>" "")
    "tool".

Definition hiddenFlag : Flag.t := Flag.mk "debug" 100 "" true true "".

Definition nameFlag : Flag.t := Flag.mk "name" 0 "name to use" false false "STRING".

Definition appWithFlags (groups : list (list Flag.t)) : Application.t :=
  Application.mk (Node.mk "app" "" [] groups [] "app [flags]" "") "app".

Definition contextOf (app : Application.t) (selected : option Node.t) (empty : bool)
    : Context.t budgetSink :=
  Context.mk (Kong.mk app (mkBudgetSink 100 [])) selected empty.

Definition TAB : ascii := "009"%char.

Definition longText : string :=
  "the quick brown fox jumps over the lazy dog and keeps running through the forest until night".

(** A printing step that cannot panic and appends [out] to the store. *)
Definition appends (m : M unit) (out : list string) : Prop :=
  forall lines, m lines = Some (tt, lines ++ out).

(** No line of the store ends in the space character. *)
Definition tidy (lines : list string) : Prop :=
  Forall (fun line => endsInSpace line = false) lines.

(** A flushed line: the line and one line feed. *)
Definition terminated (line : string) : string := line +++ nl.

(** [s[n:]], all of [s] gone when [n] exceeds its length. *)
Fixpoint drop (n : nat) (s : string) : string :=
  match n, s with
  | S k, String _ r => drop k r
  | _, _ => s
  end.

(** The empty text, or a text whose first byte is not a continuation byte
    0x80..0xBF: appended to a text, it completes no rune started there. *)
Definition boundary (s : string) : Prop :=
  match s with
  | "" => True
  | String c _ => utf8.cont c = false
  end.

(** The bytes of a word are not ASCII white space. *)
Fixpoint noSpaceByte (f : string) : Prop :=
  match f with
  | "" => True
  | String c r => unicode.isASCIISpace c = false /\ noSpaceByte r
  end.

(** ** Further vocabulary for the properties of the printer *)

(** [n] space characters. *)
Definition spaces (n : nat) : string := strings.replicate " " n.

(** The blocks of lines [blocks], with the lines [sep] between two of them
    and nothing after the last. *)
Fixpoint intercalate (sep : list string) (blocks : list (list string)) : list string :=
  match blocks with
  | [] => []
  | [b] => b
  | b :: rest => b ++ sep ++ intercalate sep rest
  end.

(** Every byte of [s] is a space character. *)
Fixpoint allSpaces (s : string) : bool :=
  match s with
  | "" => true
  | String c r => Ascii.eqb c " " && allSpaces r
  end.

(** A flag that is shown: not hidden. *)
Definition visible (flag : Flag.t) : bool := negb (Flag.Hidden flag).

(** [s] starts with [prefix] (as [strings.HasPrefix]). *)
Fixpoint HasPrefix (s prefix : string) {struct prefix} : bool :=
  match prefix, s with
  | "", _ => true
  | String p prefix', String c s' => Ascii.eqb c p && HasPrefix s' prefix'
  | String _ _, "" => false
  end.

(** The texts [texts] one after the other, as one text. *)
Definition concatAll (texts : list string) : string :=
  fold_right String.append "" texts.

(** A root with a help text, two positional arguments and a flag, without
    commands. *)
Definition srcArg : Positional.t := Positional.mk "<src>" "file to read".

Definition dstArg : Positional.t := Positional.mk "<dst>" "where to write it".

Definition copyNode : Node.t :=
  Node.mk "cp" "Copies a file." [srcArg; dstArg] [[verboseFlag]] []
          "cp <src> <dst> [flags]" "".

Definition copyApp : Application.t := Application.mk copyNode "cp".

(** * Checks of the model on small inputs *)

Example TrimSpace_ex : strings.TrimSpace ("  a b " +++ nl) = "a b".
Proof. reflexivity. Qed.

Example TrimRight_ex : strings.TrimRight ("a  " +++ String TAB " ") " " = "a  " +++ String TAB "".
Proof. reflexivity. Qed.

Example Fields_ex : strings.Fields (" ab  c" +++ nl +++ "d ") = ["ab"; "c"; "d"].
Proof. reflexivity. Qed.

Example Split_ex : strings.Split ("a" +++ nl +++ nl +++ "b") LF = ["a"; ""; "b"].
Proof. reflexivity. Qed.

Example padS_ex : fmt.padS true 5 "ab" = "ab   ".
Proof. reflexivity. Qed.

Example verbC_ex : fmt.verbC 118 = "v".
Proof. reflexivity. Qed.

Example ToText_fits :
  doc.ToText "enable verbose output" "" "  " 61 = "enable verbose output" +++ nl.
Proof. reflexivity. Qed.

Example ToText_wraps :
  doc.ToText "enable verbose output" "" "  " 14
  = "enable verbose" +++ nl +++ "output" +++ nl.
Proof. reflexivity. Qed.

Example formatFlag_ex :
  formatFlag true verboseFlag = "-v, --verbose"
  /\ formatFlag true nameFlag = "    --name=STRING"
  /\ formatFlag false nameFlag = "--name=STRING".
Proof. repeat split; reflexivity. Qed.

(** The first pass of [writeFlags] also counts hidden flags. *)
Example hidden_short_flag_reserves :
  flagRows [[nameFlag; hiddenFlag]] = [("    --name=STRING", "name to use")].
Proof. reflexivity. Qed.

Example compact_commands :
  helpLines doc.ToText noWidth (HelpPrinterOptions.mk false true)
    (contextOf toolApp None false)
  = Some ["Usage:  tool <command>"; ""; "Manages things."; ""; "Commands:";
          "  build    Build the project"; "  test     Run tests"; "";
          "Run " +++ dq +++ "tool <command> --help" +++ dq
          +++ " for more information on a command."].
Proof. reflexivity. Qed.

(** * Properties *)

(** ** Integers and lengths *)

Lemma wrap_small z : int.inRange z -> int.wrap z = z.
Proof.
  unfold int.inRange, int.wrap. intros Hz.
  rewrite Z.mod_small by lia. lia.
Qed.

Lemma len_nonneg s : 0 <= strings.len s.
Proof. unfold strings.len. lia. Qed.

Lemma leftSizeOf_from_range rows : forall acc,
  0 <= acc < 30 ->
  0 <= fold_left leftStep rows acc < 30.
Proof.
  induction rows as [|r rows IH]; intros acc Hacc; simpl; [exact Hacc|].
  apply IH. unfold leftStep.
  destruct (acc <? strings.len (fst r)) eqn:E1; simpl; [|exact Hacc].
  destruct (strings.len (fst r) <? 30) eqn:E2; [|exact Hacc].
  apply Z.ltb_lt in E1, E2. lia.
Qed.

Lemma leftSizeOf_range rows : 0 <= leftSizeOf rows < 30.
Proof. apply leftSizeOf_from_range. lia. Qed.

Lemma add_padding_default rows :
  int.add (leftSizeOf rows) defaultColumnPadding = leftSizeOf rows + 4.
Proof.
  pose proof (leftSizeOf_range rows) as Hr.
  unfold int.add, defaultColumnPadding. apply wrap_small.
  unfold int.inRange. lia.
Qed.

(** ** The printing monad *)

Lemma appends_ret : appends (ret tt) [].
Proof. intros lines. unfold ret. now rewrite app_nil_r. Qed.

Lemma appends_bind (m k : M unit) a b :
  appends m a -> appends k b -> appends (bind m (fun _ => k)) (a ++ b).
Proof.
  intros Hm Hk lines. unfold bind. rewrite Hm, Hk. now rewrite <- app_assoc.
Qed.

Lemma appends_Print h text : appends (Print h text) [lineOf h text].
Proof. intros lines. reflexivity. Qed.

Lemma appends_forRange {A} (f : nat -> A -> M unit) (g : A -> list string) l :
  forall i, (forall j x, In x l -> appends (f j x) (g x)) ->
  appends (forRange f i l) (flat_map g l).
Proof.
  induction l as [|x l IH]; intros i Hf; simpl.
  - apply appends_ret.
  - apply appends_bind.
    + apply Hf. now left.
    + apply IH. intros j y Hy. apply Hf. now right.
Qed.

Lemma flat_map_singleton {A B} (f : A -> B) l : flat_map (fun x => [f x]) l = map f l.
Proof. induction l as [|x l IH]; simpl; [reflexivity|now rewrite IH]. Qed.

Lemma appends_forEach_Print {A} h (f : A -> string) l :
  appends (forEach (fun x => Print h (f x)) l) (map (fun x => lineOf h (f x)) l).
Proof.
  rewrite <- flat_map_singleton. unfold forEach.
  apply appends_forRange. intros j x _. apply appends_Print.
Qed.

Lemma Split_nonempty s sep : strings.Split s sep <> [].
Proof.
  destruct s as [|c r]; simpl; [discriminate|].
  destruct (Ascii.eqb c sep); [discriminate|].
  destruct (strings.Split r sep); discriminate.
Qed.

Section PrinterFacts.

Variable ToText : string -> string -> string -> Z -> string.

Lemma appends_Wrap h text : appends (Wrap ToText h text) (wrapLines ToText h text).
Proof.
  unfold Wrap, wrapLines.
  apply (appends_forEach_Print h (fun x => x)).
Qed.

Lemma wrapLines_nonempty h text : wrapLines ToText h text <> [].
Proof.
  unfold wrapLines. intros Hnil. apply map_eq_nil in Hnil.
  now apply Split_nonempty in Hnil.
Qed.

Lemma appends_writeRow w padding leftSize offsetStr r :
  appends (writeRow ToText w padding leftSize offsetStr r)
          (rowLines ToText w padding leftSize offsetStr r).
Proof.
  unfold writeRow, rowLines. intros lines.
  change (strings.Repeat " " defaultIndent) with (Some "  ").
  unfold bind at 1. unfold ret at 1.
  destruct (strings.len (fst r) <? 30).
  - destruct (strings.Split _ LF) as [|l0 rest] eqn:Hs.
    + now apply Split_nonempty in Hs.
    + apply (appends_bind _ _ [_] _ (appends_Print _ _)).
      apply (appends_forEach_Print w (fun l => offsetStr +++ l)).
  - apply (appends_bind _ _ [_] _ (appends_Print _ _)).
    apply (appends_forEach_Print w (fun l => offsetStr +++ l)).
Qed.

Lemma rowLines_nonempty w padding leftSize offsetStr r :
  rowLines ToText w padding leftSize offsetStr r <> [].
Proof.
  unfold rowLines.
  destruct (strings.len (fst r) <? 30); [|discriminate].
  destruct (strings.Split _ LF) eqn:Hs; [|discriminate].
  now apply Split_nonempty in Hs.
Qed.

Lemma appends_writeTwoColumns w rows :
  appends (writeTwoColumns ToText w defaultColumnPadding rows)
          (tableLines ToText w defaultColumnPadding rows).
Proof.
  unfold writeTwoColumns, tableLines, strings.Repeat.
  rewrite add_padding_default.
  pose proof (leftSizeOf_range rows) as Hr.
  destruct (leftSizeOf rows + 4 <? 0) eqn:E; [apply Z.ltb_lt in E; lia|].
  unfold forEach. apply appends_forRange.
  intros j x _. apply appends_writeRow.
Qed.

Lemma appends_printCommandSummary w cmd :
  appends (printCommandSummary ToText w cmd) (commandLines ToText w cmd).
Proof.
  unfold printCommandSummary, commandLines.
  apply (appends_bind _ _ [_] _ (appends_Print _ _)).
  destruct (String.eqb (Node.Help cmd) ""); simpl.
  - apply appends_ret.
  - apply appends_Wrap.
Qed.

Lemma appends_commandLoop iw total : forall cmds i,
  (i + List.length cmds = total)%nat ->
  appends
    (forRange (fun i cmd =>
                 bind (printCommandSummary ToText iw cmd)
                      (fun _ => if negb (Z.of_nat i =? Z.of_nat total - 1)
                                then Print iw "" else ret tt)) i cmds)
    (commandBlocks ToText iw cmds).
Proof.
  induction cmds as [|cmd rest IH]; intros i Hlen.
  - apply appends_ret.
  - cbn [forRange]. destruct rest as [|cmd' rest'].
    + cbn [commandBlocks forRange]. simpl in Hlen.
      replace (Z.of_nat i =? Z.of_nat total - 1) with true
        by (symmetry; apply Z.eqb_eq; lia).
      cbn [negb]. rewrite <- (app_nil_r (commandLines ToText iw cmd)).
      apply appends_bind; [|apply appends_ret].
      rewrite <- (app_nil_r (commandLines ToText iw cmd)).
      apply appends_bind; [apply appends_printCommandSummary|apply appends_ret].
    + change (commandBlocks ToText iw (cmd :: cmd' :: rest'))
        with (commandLines ToText iw cmd ++ lineOf iw "" :: commandBlocks ToText iw (cmd' :: rest')).
      simpl in Hlen.
      replace (Z.of_nat i =? Z.of_nat total - 1) with false
        by (symmetry; apply Z.eqb_neq; lia).
      cbn [negb].
      replace (commandLines ToText iw cmd ++ lineOf iw "" :: commandBlocks ToText iw (cmd' :: rest'))
        with ((commandLines ToText iw cmd ++ [lineOf iw ""]) ++ commandBlocks ToText iw (cmd' :: rest'))
        by (now rewrite <- app_assoc).
      apply appends_bind.
      * apply appends_bind; [apply appends_printCommandSummary|apply appends_Print].
      * apply IH. simpl. lia.
Qed.

Lemma appends_printNodeDetail w node :
  appends (printNodeDetail ToText w node) (detailLines ToText w node).
Proof.
  unfold printNodeDetail, detailLines.
  apply appends_bind.
  - unfold helpBlock. destruct (String.eqb (Node.Help node) ""); simpl.
    + apply appends_ret.
    + apply (appends_bind _ _ [_] _ (appends_Print _ _)). apply appends_Wrap.
  - destruct (HelpPrinterOptions.Summary (options w)); [apply appends_ret|].
    apply appends_bind; [|apply appends_bind].
    + unfold argumentsBlock. destruct (Node.Positional node) as [|a args]; simpl.
      * apply appends_ret.
      * apply (appends_bind _ _ [_] _ (appends_Print _ _)).
        apply (appends_bind _ _ [_] _ (appends_Print _ _)).
        apply appends_writeTwoColumns.
    + unfold flagsBlock. destruct (Node.AllFlags node) as [|g groups]; simpl.
      * apply appends_ret.
      * apply (appends_bind _ _ [_] _ (appends_Print _ _)).
        apply (appends_bind _ _ [_] _ (appends_Print _ _)).
        apply appends_writeTwoColumns.
    + unfold commandsBlock. destruct (Node.Leaves node) as [|c cmds] eqn:Hl.
      * apply appends_ret.
      * cbn [List.length Nat.ltb Nat.leb].
        apply (appends_bind _ _ [_] _ (appends_Print _ _)).
        apply (appends_bind _ _ [_] _ (appends_Print _ _)).
        destruct (HelpPrinterOptions.Compact (options w)).
        -- apply appends_writeTwoColumns.
        -- apply (appends_commandLoop (Indent w) (List.length (c :: cmds)) (c :: cmds) 0).
           reflexivity.
Qed.

End PrinterFacts.

(** ** The label column of the two-column layout *)

Lemma leftStep_max acc r :
  leftStep acc r = if strings.len (fst r) <? 30 then Z.max acc (strings.len (fst r)) else acc.
Proof.
  unfold leftStep. cbv zeta.
  destruct (strings.len (fst r) <? 30); [|now rewrite andb_false_r].
  rewrite andb_true_r.
  destruct (acc <? strings.len (fst r)) eqn:E;
    [apply Z.ltb_lt in E|apply Z.ltb_ge in E]; lia.
Qed.

Lemma fold_leftStep_max rows : forall acc,
  0 <= acc -> fold_left leftStep rows acc = Z.max acc (maxLabelBelowCutoff rows).
Proof.
  unfold maxLabelBelowCutoff.
  induction rows as [|r rows IH]; intros acc Hacc; simpl.
  - lia.
  - pose proof (len_nonneg (fst r)) as Hc.
    rewrite leftStep_max.
    destruct (strings.len (fst r) <? 30); simpl.
    + rewrite IH by lia. lia.
    + now apply IH.
Qed.

Lemma maxLabelBelowCutoff_nonneg rows : 0 <= maxLabelBelowCutoff rows.
Proof.
  unfold maxLabelBelowCutoff.
  induction rows as [|r rows IH]; simpl; [lia|].
  destruct (strings.len (fst r) <? 30); simpl; lia.
Qed.

Lemma leftSizeOf_max rows : leftSizeOf rows = maxLabelBelowCutoff rows.
Proof.
  change (leftSizeOf rows) with (fold_left leftStep rows 0).
  rewrite fold_leftStep_max by lia.
  pose proof (maxLabelBelowCutoff_nonneg rows). lia.
Qed.

Lemma leftSizeOf_skip_long (pre : list row) (r : row) (post : list row) :
  30 <= strings.len (fst r) -> leftSizeOf (pre ++ r :: post) = leftSizeOf (pre ++ post).
Proof.
  intros Hlong.
  change leftSizeOf with (fun rows => fold_left leftStep rows 0). cbv beta.
  rewrite !fold_left_app. simpl. f_equal.
  rewrite leftStep_max.
  destruct (strings.len (fst r) <? 30) eqn:E; [apply Z.ltb_lt in E; lia|reflexivity].
Qed.

(** C1. The label column of [writeTwoColumns] is as wide as the longest
    label among those shorter than the cutoff of 30 bytes (0 when there is
    none). A row whose label has 30 bytes or more does not change it: with
    that row added anywhere, the width is the one of the other rows alone, and
    the table is laid out, row by row, with that width and the offset that
    follows from it. *)
Theorem leftSize_is_max_label_below_cutoff
    (ToText : string -> string -> string -> Z -> string) (w : helpWriter)
    (pre post : list row) (r : row) (lines : list string) :
  30 <= strings.len (fst r) ->
  (forall rows, leftSizeOf rows = maxLabelBelowCutoff rows)
  /\ leftSizeOf (pre ++ r :: post) = leftSizeOf (pre ++ post)
  /\ (let leftSize := maxLabelBelowCutoff (pre ++ post) in
      let offsetStr := strings.replicate " " (Z.to_nat (leftSize + 4)) in
      let others := flat_map (rowLines ToText w defaultColumnPadding leftSize offsetStr) in
      writeTwoColumns ToText w defaultColumnPadding (pre ++ post) lines
        = Some (tt, lines ++ others pre ++ others post)
      /\ writeTwoColumns ToText w defaultColumnPadding (pre ++ r :: post) lines
        = Some (tt, lines ++ others pre
                      ++ rowLines ToText w defaultColumnPadding leftSize offsetStr r
                      ++ others post)).
Proof.
  intros Hlong. split; [exact leftSizeOf_max|].
  split; [now apply leftSizeOf_skip_long|].
  cbv zeta. split.
  - rewrite appends_writeTwoColumns. unfold tableLines.
    rewrite add_padding_default, leftSizeOf_max, flat_map_app. reflexivity.
  - rewrite appends_writeTwoColumns. unfold tableLines.
    rewrite add_padding_default, (leftSizeOf_skip_long pre r post Hlong), leftSizeOf_max.
    rewrite flat_map_app. reflexivity.
Qed.

Lemma leftSize_is_max_label_below_cutoff_witness :
  30 <= strings.len "--a-flag-with-a-very-long-name=STRING"
  /\ leftSizeOf [("-v, --verbose", "x"); ("--a-flag-with-a-very-long-name=STRING", "y");
                 ("    --name=STRING", "z")] = 17.
Proof.
  split; [vm_compute; discriminate|].
  destruct (leftSize_is_max_label_below_cutoff doc.ToText (mkHelpWriter "" 80
              (HelpPrinterOptions.mk false false))
              [("-v, --verbose", "x")] [("    --name=STRING", "z")]
              ("--a-flag-with-a-very-long-name=STRING", "y") [])
    as [_ [Hskip _]].
  - vm_compute; discriminate.
  - etransitivity; [exact Hskip|reflexivity].
Defined.

(** ** The flag table *)

Lemma groupHasShort_existsb group : groupHasShort group = existsb hasShort group.
Proof.
  induction group as [|flag r IH]; simpl; [reflexivity|].
  destruct (hasShort flag); simpl; auto.
Qed.

Lemma haveShortOf_from groups : forall acc,
  fold_left (fun haveShort group => if groupHasShort group then true else haveShort)
            groups acc
  = acc || existsb hasShort (List.concat groups).
Proof.
  induction groups as [|g groups IH]; intros acc; simpl.
  - now rewrite orb_false_r.
  - rewrite IH, existsb_app, groupHasShort_existsb.
    destruct (existsb hasShort g), acc; reflexivity.
Qed.

Lemma haveShortOf_existsb groups :
  haveShortOf groups = existsb hasShort (List.concat groups).
Proof. unfold haveShortOf. now rewrite haveShortOf_from. Qed.

Lemma haveShortOf_true groups :
  haveShortOf groups = true
  <-> exists flag, In flag (List.concat groups) /\ Flag.Short flag <> 0.
Proof.
  rewrite haveShortOf_existsb, existsb_exists. unfold hasShort.
  split; intros [flag [Hin Hs]]; exists flag; split; auto.
  - apply negb_true_iff, Z.eqb_neq in Hs. exact Hs.
  - apply negb_true_iff, Z.eqb_neq. exact Hs.
Qed.

Lemma fold_visibleRows haveShort group : forall rows,
  fold_left (fun rows flag =>
               if negb (Flag.Hidden flag)
               then rows ++ [(formatFlag haveShort flag, Flag.Help flag)]
               else rows) group rows
  = rows ++ visibleRows haveShort group.
Proof.
  unfold visibleRows.
  induction group as [|flag r IH]; intros rows; simpl.
  - now rewrite app_nil_r.
  - rewrite IH. destruct (negb (Flag.Hidden flag)); simpl; [|reflexivity].
    now rewrite <- app_assoc.
Qed.

Lemma flagRowsFrom_later haveShort groups : forall i rows,
  flagRowsFrom haveShort (S i) groups rows
  = rows ++ flat_map (fun g => ("", "") :: visibleRows haveShort g) groups.
Proof.
  induction groups as [|g groups IH]; intros i rows; simpl.
  - now rewrite app_nil_r.
  - rewrite fold_visibleRows, IH. rewrite <- !app_assoc. reflexivity.
Qed.

Lemma flagRows_groups groups : flagRows groups = rowsOfGroups (haveShortOf groups) groups.
Proof.
  unfold flagRows, rowsOfGroups.
  destruct groups as [|g groups]; [reflexivity|].
  cbn [flagRowsFrom Nat.ltb Nat.leb].
  now rewrite fold_visibleRows, flagRowsFrom_later.
Qed.

Lemma append_empty_r s : s +++ "" = s.
Proof. induction s as [|c s IH]; simpl; [reflexivity|now rewrite IH]. Qed.

Lemma formatFlag_long_only haveShort flag :
  Flag.Short flag = 0 ->
  formatFlag haveShort flag
  = (if haveShort then "    --" else "--") +++ Flag.Name flag +++ valueSuffix flag.
Proof.
  intros Hs. unfold formatFlag, valueSuffix. rewrite Hs.
  destruct haveShort, (Flag.IsBool flag); simpl; now rewrite ?append_empty_r.
Qed.

(** C2, at the input where the code leaves it. The first pass of
    [writeFlags] reads every flag, hidden ones too, although the comment on
    [formatFlag] speaks of the short flags "present at all in the help" and
    the second pass leaves hidden flags out. With the visible flag
    [--name=STRING], which has no short form, and the hidden flag [-d,
    --debug], no visible flag has a short form; yet the table that
    [writeFlags] hands to the two-column layout has the label of [--name]
    after four spaces, where the flag alone gives the label without them,
    and the render shows the flag six columns in instead of two. *)
Theorem writeFlags_counts_hidden_short_flag
    (ToText : string -> string -> string -> Z -> string) (w : helpWriter)
    (lines : list string) :
  existsb hasShort (filter visible [nameFlag; hiddenFlag]) = false
  /\ writeFlags ToText w [[nameFlag; hiddenFlag]] lines
     = writeTwoColumns ToText w defaultColumnPadding
         [("    --name=STRING", "name to use")] lines
  /\ writeFlags ToText w [[nameFlag]] lines
     = writeTwoColumns ToText w defaultColumnPadding
         [("--name=STRING", "name to use")] lines
  /\ helpLines doc.ToText noWidth (HelpPrinterOptions.mk false false)
       (contextOf (appWithFlags [[nameFlag; hiddenFlag]]) None true)
     = Some ["Usage:  app [flags]"; ""; "Flags:"; "      --name=STRING    name to use"]
  /\ helpLines doc.ToText noWidth (HelpPrinterOptions.mk false false)
       (contextOf (appWithFlags [[nameFlag]]) None true)
     = Some ["Usage:  app [flags]"; ""; "Flags:"; "  --name=STRING    name to use"].
Proof.
  split; [reflexivity|].
  split; [reflexivity|].
  split; [reflexivity|].
  split; vm_compute; reflexivity.
Qed.

(** ** The renderer *)

Section RenderFacts.

Variable ToText : string -> string -> string -> Z -> string.

Lemma appends_printApp w app : appends (printApp ToText w app) (appLines ToText w app).
Proof.
  unfold printApp, appLines.
  apply (appends_bind _ _ [_] _ (appends_Print _ _)).
  apply appends_bind; [apply appends_printNodeDetail|].
  unfold appHint. destruct (Application.Leaves app) as [|c cmds]; simpl.
  - apply appends_ret.
  - apply (appends_bind _ _ [_] [_] (appends_Print _ _)).
    destruct (HelpPrinterOptions.Summary (options w)); apply appends_Print.
Qed.

Lemma appends_printCommand w app cmd :
  appends (printCommand ToText w app cmd) (commandPageLines ToText w app cmd).
Proof.
  unfold printCommand, commandPageLines.
  apply (appends_bind _ _ [_] _ (appends_Print _ _)).
  apply appends_bind; [apply appends_printNodeDetail|].
  unfold commandHint. destruct (HelpPrinterOptions.Summary (options w)).
  - apply (appends_bind _ _ [_] [_] (appends_Print _ _)). apply appends_Print.
  - apply appends_ret.
Qed.

Context {W E : Type} `{Writer W E}.
Variable guessWidth : W -> Z.

Lemma helpLines_lines options (ctx : Context.t W) :
  helpLines ToText guessWidth options ctx
  = Some (let w := newHelpWriter guessWidth ctx (effective options ctx) in
          match Context.Selected ctx with
          | None => appLines ToText w (Kong.Model (Context.App ctx))
          | Some cmd => commandPageLines ToText w (Kong.Model (Context.App ctx)) cmd
          end).
Proof.
  unfold helpLines. cbv zeta.
  destruct (Context.Selected ctx) as [cmd|].
  - now rewrite appends_printCommand.
  - now rewrite appends_printApp.
Qed.

End RenderFacts.

(** C3. The root [app [flags]] with the single flag [-v, --verbose]
    (boolean, help "enable verbose output"), without help text, positionals
    or commands, rendered with summary off, gives exactly the four lines
    [Usage:  app [flags]], the empty line, [Flags:] and
    [  -v, --verbose    enable verbose output], whenever the text wrapper
    leaves the flag's help on one line at the width that remains (the
    terminal width less 2 of indent, 13 of label and 4 of padding). *)
Theorem single_flag_document {W E : Type} `{Writer W E}
    (ToText : string -> string -> string -> Z -> string) (guessWidth : W -> Z)
    (name path placeHolder appName : string) (stdout : W) (empty compact : bool) :
  ToText "enable verbose output" "" "  "
         (int.sub (int.sub (int.sub (guessWidth stdout) 2) 13) 4)
    = "enable verbose output" +++ nl ->
  helpLines ToText guessWidth (HelpPrinterOptions.mk false compact)
    (Context.mk
       (Kong.mk
          (Application.mk
             (Node.mk name "" []
                [[Flag.mk "verbose" 118 "enable verbose output" false true placeHolder]]
                [] "app [flags]" path)
             appName)
          stdout)
       None empty)
  = Some ["Usage:  app [flags]"; ""; "Flags:"; "  -v, --verbose    enable verbose output"].
Proof.
  intros HT. rewrite helpLines_lines. f_equal.
  assert (Heff : effective (HelpPrinterOptions.mk false compact)
            (Context.mk (Kong.mk (Application.mk (Node.mk name "" []
                [[Flag.mk "verbose" 118 "enable verbose output" false true placeHolder]]
                [] "app [flags]" path) appName) stdout) None empty)
          = HelpPrinterOptions.mk false compact) by (destruct empty; reflexivity).
  cbv zeta. rewrite Heff.
  cbv -[int.sub]. cbv -[int.sub] in HT. rewrite HT. reflexivity.
Qed.

Lemma single_flag_document_witness :
  helpLines doc.ToText noWidth (HelpPrinterOptions.mk false false)
    (contextOf flagsApp None true)
  = Some ["Usage:  app [flags]"; ""; "Flags:"; "  -v, --verbose    enable verbose output"].
Proof.
  exact (single_flag_document doc.ToText noWidth "app" "" "" "app"
           (mkBudgetSink 100 []) true false eq_refl).
Defined.

(** C4. When [ctx.Empty()] holds, the options the caller passed for
    [Summary] do not matter: [DefaultHelpPrinter] writes to the output, line
    by line, the usage line followed by the full detail of the node (help
    text, argument table, flag table, commands) and, for the root, the hint
    of the detailed mode, all laid out as with summary off. *)
Theorem empty_model_forces_full_detail {W E : Type} `{Writer W E}
    (ToText : string -> string -> string -> Z -> string) (guessWidth : W -> Z)
    (opts : HelpPrinterOptions.t) (ctx : Context.t W) :
  Context.Empty ctx = true ->
  let full := HelpPrinterOptions.mk false (HelpPrinterOptions.Compact opts) in
  let w := newHelpWriter guessWidth ctx full in
  let app := Kong.Model (Context.App ctx) in
  let detail node :=
    helpBlock ToText w node ++ argumentsBlock ToText w node
    ++ flagsBlock ToText w node ++ commandsBlock ToText w node in
  let lines :=
    match Context.Selected ctx with
    | None =>
        lineOf w ("Usage:  " +++ Application.Summary app)
        :: detail (Application.Node app) ++ appHint w app
    | Some cmd =>
        lineOf w ("Usage:  " +++ Application.Name app +++ " " +++ Node.Summary cmd)
        :: detail cmd
    end in
  helpLines ToText guessWidth opts ctx = Some lines
  /\ DefaultHelpPrinter ToText guessWidth opts ctx
     = Some (Write lines (Kong.Stdout (Context.App ctx))).
Proof.
  intros Hempty full w app detail lines.
  assert (Heff : effective opts ctx = full)
    by (unfold effective; now rewrite Hempty).
  assert (Hlines : helpLines ToText guessWidth opts ctx = Some lines).
  { rewrite helpLines_lines, Heff. cbv zeta. fold w. fold app. f_equal.
    unfold lines, detail.
    destruct (Context.Selected ctx) as [cmd|].
    - unfold commandPageLines, detailLines, commandHint. cbn [options w newHelpWriter full
        HelpPrinterOptions.Summary].
      rewrite <- !app_assoc, app_nil_r. reflexivity.
    - unfold appLines, detailLines. cbn [options w newHelpWriter full
        HelpPrinterOptions.Summary].
      rewrite <- !app_assoc. reflexivity. }
  split; [exact Hlines|].
  unfold DefaultHelpPrinter. now rewrite Hlines.
Qed.

Lemma empty_model_forces_full_detail_witness :
  DefaultHelpPrinter doc.ToText noWidth (HelpPrinterOptions.mk true false)
    (contextOf copyApp None true)
  = Some (mkBudgetSink 90
            (map terminated
                 ["Usage:  cp <src> <dst> [flags]"; ""; "Copies a file."; "";
                  "Arguments:"; "  <src>    file to read"; "  <dst>    where to write it";
                  ""; "Flags:"; "  -v, --verbose    enable verbose output"]),
          None).
Proof.
  etransitivity.
  - exact (proj2 (empty_model_forces_full_detail doc.ToText noWidth
                    (HelpPrinterOptions.mk true false) (contextOf copyApp None true)
                    eq_refl)).
  - vm_compute. reflexivity.
Defined.

(** C5, as the code has it. With summary on and [ctx.Empty()] false, a render
    is the usage line, then the node's help text when it has one (an empty
    line and the wrapped text), then the hint after an empty line (for the
    root, only when it has commands). The detail step adds nothing else: no
    [Arguments:], [Flags:] or [Commands:] header and no table. *)
Theorem summary_render_lines {W E : Type} `{Writer W E}
    (ToText : string -> string -> string -> Z -> string) (guessWidth : W -> Z)
    (opts : HelpPrinterOptions.t) (ctx : Context.t W) :
  HelpPrinterOptions.Summary opts = true ->
  Context.Empty ctx = false ->
  let w := newHelpWriter guessWidth ctx opts in
  let app := Kong.Model (Context.App ctx) in
  helpLines ToText guessWidth opts ctx
  = Some (match Context.Selected ctx with
          | None =>
              lineOf w ("Usage:  " +++ Application.Summary app)
              :: helpBlock ToText w (Application.Node app)
                 ++ match Application.Leaves app with
                    | [] => []
                    | _ => [""; lineOf w ("Run " +++ dq +++ Application.Name app
                                          +++ " --help" +++ dq
                                          +++ " for more information.")]
                    end
          | Some cmd =>
              lineOf w ("Usage:  " +++ Application.Name app +++ " " +++ Node.Summary cmd)
              :: helpBlock ToText w cmd
                 ++ [""; lineOf w ("Run " +++ dq +++ Application.Name app +++ " "
                                   +++ Node.Path cmd +++ " --help" +++ dq
                                   +++ " for more information.")]
          end).
Proof.
  intros Hsum Hempty w app.
  rewrite helpLines_lines. unfold effective. rewrite Hempty. cbv zeta.
  fold w. fold app. f_equal.
  destruct (Context.Selected ctx) as [cmd|].
  - unfold commandPageLines, detailLines, commandHint.
    cbn [options w newHelpWriter]. rewrite Hsum, app_nil_r. reflexivity.
  - unfold appLines, detailLines, appHint.
    cbn [options w newHelpWriter]. rewrite Hsum, app_nil_r.
    destruct (Application.Leaves app); reflexivity.
Qed.

Lemma summary_render_lines_witness :
  helpLines doc.ToText noWidth (HelpPrinterOptions.mk true false)
    (contextOf toolApp None false)
  = Some ["Usage:  tool <command>"; ""; "Manages things."; "";
          "Run " +++ dq +++ "tool --help" +++ dq +++ " for more information."].
Proof.
  exact (summary_render_lines doc.ToText noWidth (HelpPrinterOptions.mk true false)
           (contextOf toolApp None false) eq_refl eq_refl).
Defined.

(** C5 as stated fails: a root with a help text and two commands, rendered
    with summary on, gives five lines; the third is the help text, which is
    neither the usage line, nor the hint, nor empty. *)
Lemma summary_render_shows_help_text :
  helpLines doc.ToText noWidth (HelpPrinterOptions.mk true false)
    (contextOf toolApp None false)
  = Some ["Usage:  tool <command>"; ""; "Manages things."; "";
          "Run " +++ dq +++ "tool --help" +++ dq +++ " for more information."]
  /\ ~ (forall lines,
          helpLines doc.ToText noWidth (HelpPrinterOptions.mk true false)
            (contextOf toolApp None false) = Some lines ->
          Forall (fun line =>
                    line = "Usage:  tool <command>" \/ line = ""
                    \/ line = "Run " +++ dq +++ "tool --help" +++ dq
                              +++ " for more information.") lines).
Proof.
  split; [reflexivity|].
  intros Hall. specialize (Hall _ eq_refl).
  apply Forall_inv_tail, Forall_inv_tail, Forall_inv in Hall.
  destruct Hall as [Hl|[Hl|Hl]]; discriminate Hl.
Qed.

(** ** The line buffer *)

Lemma TrimRight_space_end s : endsInSpace (strings.TrimRight s " ") = false.
Proof.
  induction s as [|c r IH]; [reflexivity|].
  cbn [strings.TrimRight].
  destruct (strings.TrimRight r " ") as [|d r'] eqn:Hr.
  - cbn [strings.inSet]. rewrite orb_false_r.
    destruct (Ascii.eqb c " ") eqn:Hc; [reflexivity|].
    cbn [endsInSpace]. exact Hc.
  - exact IH.
Qed.

Lemma lineOf_tidy h text : endsInSpace (lineOf h text) = false.
Proof. apply TrimRight_space_end. Qed.

Lemma tidy_map_lineOf {A} h (f : A -> string) l :
  tidy (map (fun x => lineOf h (f x)) l).
Proof. apply Forall_forall. intros x Hx. apply in_map_iff in Hx.
  destruct Hx as [y [<- _]]. apply lineOf_tidy. Qed.

Lemma tidy_app a b : tidy a -> tidy b -> tidy (a ++ b).
Proof. intros Ha Hb. apply Forall_app. now split. Qed.

Lemma tidy_cons_lineOf h text l : tidy l -> tidy (lineOf h text :: l).
Proof. intros Hl. constructor; [apply lineOf_tidy|exact Hl]. Qed.

Lemma tidy_flat_map {A} (g : A -> list string) l :
  (forall x, tidy (g x)) -> tidy (flat_map g l).
Proof.
  intros Hg. induction l as [|x l IH]; simpl; [constructor|].
  apply tidy_app; auto.
Qed.

Section TidyLines.

Variable ToText : string -> string -> string -> Z -> string.

Lemma tidy_wrapLines h text : tidy (wrapLines ToText h text).
Proof. unfold wrapLines. apply (tidy_map_lineOf h (fun x => x)). Qed.

Lemma tidy_rowLines w padding leftSize offsetStr r :
  tidy (rowLines ToText w padding leftSize offsetStr r).
Proof.
  unfold rowLines.
  destruct (strings.len (fst r) <? 30).
  - destruct (strings.Split _ LF); [constructor|].
    apply tidy_cons_lineOf. apply (tidy_map_lineOf w (fun l => offsetStr +++ l)).
  - apply tidy_cons_lineOf. apply (tidy_map_lineOf w (fun l => offsetStr +++ l)).
Qed.

Lemma tidy_tableLines w padding rows : tidy (tableLines ToText w padding rows).
Proof. unfold tableLines. apply tidy_flat_map. intros x. apply tidy_rowLines. Qed.

Lemma tidy_commandLines w cmd : tidy (commandLines ToText w cmd).
Proof.
  unfold commandLines. apply tidy_cons_lineOf.
  destruct (String.eqb (Node.Help cmd) ""); [constructor|apply tidy_wrapLines].
Qed.

Lemma tidy_commandBlocks w cmds : tidy (commandBlocks ToText w cmds).
Proof.
  induction cmds as [|cmd rest IH]; [constructor|].
  destruct rest as [|cmd' rest'].
  - apply tidy_commandLines.
  - change (tidy (commandLines ToText w cmd
                  ++ lineOf w "" :: commandBlocks ToText w (cmd' :: rest'))).
    apply tidy_app; [apply tidy_commandLines|].
    apply tidy_cons_lineOf. exact IH.
Qed.

Lemma tidy_detailLines w node : tidy (detailLines ToText w node).
Proof.
  unfold detailLines. apply tidy_app.
  - unfold helpBlock. destruct (String.eqb (Node.Help node) ""); [constructor|].
    apply tidy_cons_lineOf, tidy_wrapLines.
  - destruct (HelpPrinterOptions.Summary (options w)); [constructor|].
    repeat apply tidy_app.
    + unfold argumentsBlock. destruct (Node.Positional node); [constructor|].
      apply tidy_cons_lineOf, tidy_cons_lineOf, tidy_tableLines.
    + unfold flagsBlock. destruct (Node.AllFlags node); [constructor|].
      apply tidy_cons_lineOf, tidy_cons_lineOf, tidy_tableLines.
    + unfold commandsBlock. destruct (Node.Leaves node); [constructor|].
      apply tidy_cons_lineOf, tidy_cons_lineOf.
      destruct (HelpPrinterOptions.Compact (options w));
        [apply tidy_tableLines|apply tidy_commandBlocks].
Qed.

Lemma tidy_appLines w app : tidy (appLines ToText w app).
Proof.
  unfold appLines. apply tidy_cons_lineOf, tidy_app; [apply tidy_detailLines|].
  unfold appHint. destruct (Application.Leaves app); [constructor|].
  apply tidy_cons_lineOf, tidy_cons_lineOf. constructor.
Qed.

Lemma tidy_commandPageLines w app cmd : tidy (commandPageLines ToText w app cmd).
Proof.
  unfold commandPageLines. apply tidy_cons_lineOf, tidy_app; [apply tidy_detailLines|].
  unfold commandHint. destruct (HelpPrinterOptions.Summary (options w)); [|constructor].
  apply tidy_cons_lineOf, tidy_cons_lineOf. constructor.
Qed.

Lemma runOps_tidy w ops :
  exists out, appends (runOps ToText w ops) out /\ tidy out.
Proof.
  unfold runOps, forEach. generalize 0%nat.
  induction ops as [|op ops IH]; intros i.
  - exists []. split; [apply appends_ret|constructor].
  - destruct (IH (S i)) as [out [Hout Htidy]].
    destruct op as [depth text|depth text].
    + exists ([lineOf (view w depth) text] ++ out). split.
      * cbn [forRange]. apply appends_bind; [apply appends_Print|exact Hout].
      * apply tidy_cons_lineOf. exact Htidy.
    + exists (wrapLines ToText (view w depth) text ++ out). split.
      * cbn [forRange]. apply appends_bind; [apply appends_Wrap|exact Hout].
      * apply tidy_app; [apply tidy_wrapLines|exact Htidy].
Qed.

End TidyLines.

(** C6, as the code has it. [Print] trims the space character U+0020, and
    only that one, from the end of indent plus text. So after any sequence of
    [Print], [Printf] and [Wrap] through the views that [Indent] gives, run
    on a store whose lines do not end in a space, no line of the store ends
    in a space; and no line of a render does. *)
Theorem stored_lines_do_not_end_in_space {W E : Type} `{Writer W E}
    (ToText : string -> string -> string -> Z -> string) (guessWidth : W -> Z)
    (w : helpWriter) (ops : list bufferOp) (lines : list string)
    (opts : HelpPrinterOptions.t) (ctx : Context.t W) :
  tidy lines ->
  (exists lines', runOps ToText w ops lines = Some (tt, lines') /\ tidy lines')
  /\ (exists document, helpLines ToText guessWidth opts ctx = Some document
                       /\ tidy document).
Proof.
  intros Hlines. split.
  - destruct (runOps_tidy ToText w ops) as [out [Hout Htidy]].
    exists (lines ++ out). split; [apply Hout|now apply tidy_app].
  - rewrite helpLines_lines. eexists. split; [reflexivity|].
    cbv zeta. destruct (Context.Selected ctx).
    + apply tidy_commandPageLines.
    + apply tidy_appLines.
Qed.

Lemma stored_lines_do_not_end_in_space_witness :
  exists lines',
    runOps doc.ToText (mkHelpWriter "" 80 (HelpPrinterOptions.mk false false))
      [OpPrint 0 "Flags:  "; OpWrap 1 "enable verbose output "; OpPrint 2 "   "] []
    = Some (tt, lines') /\ tidy lines'.
Proof.
  exact (proj1 (stored_lines_do_not_end_in_space doc.ToText noWidth
                  (mkHelpWriter "" 80 (HelpPrinterOptions.mk false false))
                  [OpPrint 0 "Flags:  "; OpWrap 1 "enable verbose output "; OpPrint 2 "   "]
                  [] (HelpPrinterOptions.mk false false) (contextOf flagsApp None true)
                  (Forall_nil _))).
Defined.

(** C6 as stated fails for white space other than the space character: a
    text that ends in a tab is stored with its tab. *)
Lemma Print_keeps_trailing_tab :
  Print (mkHelpWriter "" 80 (HelpPrinterOptions.mk false false))
        ("done" +++ String TAB "") []
  = Some (tt, ["done" +++ String TAB ""])
  /\ endsInWhitespace ("done" +++ String TAB "") = true
  /\ ~ (forall w ops lines',
          runOps doc.ToText w ops [] = Some (tt, lines') ->
          Forall (fun line => endsInWhitespace line = false) lines').
Proof.
  split; [reflexivity|]. split; [reflexivity|].
  intros Hall.
  specialize (Hall (mkHelpWriter "" 80 (HelpPrinterOptions.mk false false))
                   [OpPrint 0 ("done" +++ String TAB "")] _ eq_refl).
  apply Forall_inv in Hall. discriminate Hall.
Qed.

(** ** Flushing the store *)

Section Flush.

Context {W E : Type} `{Writer W E}.

Lemma Write_all_written lines : forall w,
  allWritten w (map terminated lines) ->
  Write lines w = (after w (map terminated lines), None).
Proof.
  induction lines as [|line rest IH]; intros w Hall; [reflexivity|].
  cbn [map allWritten] in Hall. destruct Hall as [Hok Hrest].
  cbn [Write map]. unfold after. cbn [fold_left]. fold (terminated line).
  destruct (WriteString w (terminated line)) as [w' [err|]]; [discriminate Hok|].
  apply IH. exact Hrest.
Qed.

Lemma Write_first_failure pre line post w' err : forall w,
  allWritten w (map terminated pre) ->
  WriteString (after w (map terminated pre)) (terminated line) = (w', Some err) ->
  Write (pre ++ line :: post) w = (w', Some err).
Proof.
  induction pre as [|p pre IH]; intros w Hall Hfail.
  - cbn in Hfail. cbn [app Write]. fold (terminated line). now rewrite Hfail.
  - cbn [map allWritten] in Hall. destruct Hall as [Hok Hrest].
    cbn [app Write]. fold (terminated p).
    unfold after in Hfail. cbn [map fold_left] in Hfail.
    destruct (WriteString w (terminated p)) as [w1 [e1|]]; [discriminate Hok|].
    apply IH; assumption.
Qed.

End Flush.

Lemma Write_budgetSink lines : forall k log,
  Write lines (mkBudgetSink k log)
  = if (k <? List.length lines)%nat
    then (mkBudgetSink 0 (log ++ map terminated (firstn k lines)), Some tt)
    else (mkBudgetSink (k - List.length lines) (log ++ map terminated lines), None).
Proof.
  induction lines as [|line rest IH]; intros k log.
  - cbn. now rewrite Nat.sub_0_r, app_nil_r.
  - destruct k as [|k].
    + cbn. now rewrite app_nil_r.
    + cbn [Write]. unfold WriteString at 1, budgetSinkWriter. cbn [budget written].
      rewrite IH. cbn [List.length firstn map Nat.sub].
      change (S k <? S (List.length rest))%nat with (k <? List.length rest)%nat.
      rewrite <- !app_assoc. reflexivity.
Qed.

(** C7. [Write] sends the lines to the sink in the order of the store, each
    as one write of the line followed by one line feed. If all these writes
    succeed, it returns no error after the last one. If the write of some
    line fails after those of the lines before it succeeded, it returns that
    error with the sink as that write left it: the lines after it are not
    written. On the recording sink with a budget of [k] writes: all lines
    are recorded when there are at most [k], and the first [k] only, with
    the error, when there are more. *)
Theorem Write_stops_at_first_error {W E : Type} `{Writer W E}
    (lines : list string) (w : W) :
  (allWritten w (map terminated lines) ->
   Write lines w = (after w (map terminated lines), None))
  /\ (forall pre line post w' err,
        lines = pre ++ line :: post ->
        allWritten w (map terminated pre) ->
        WriteString (after w (map terminated pre)) (terminated line) = (w', Some err) ->
        Write lines w = (w', Some err))
  /\ (forall k log,
        Write lines (mkBudgetSink k log)
        = if (k <? List.length lines)%nat
          then (mkBudgetSink 0 (log ++ map terminated (firstn k lines)), Some tt)
          else (mkBudgetSink (k - List.length lines) (log ++ map terminated lines), None)).
Proof.
  split; [apply Write_all_written|]. split; [|apply Write_budgetSink].
  intros pre line post w' err -> Hall Hfail.
  now apply Write_first_failure.
Qed.

(** ** Sections of the detail block *)

Lemma wrapLines_of (ToText : string -> string -> string -> Z -> string) h text out :
  ToText (strings.TrimSpace text) "" "    " (width h) = out ->
  wrapLines ToText h text
  = map (lineOf h) (strings.Split (strings.TrimSpace out) LF).
Proof. intros Hout. unfold wrapLines. now rewrite Hout. Qed.

(** C8. For a node with the two commands [build] (help "Build the project")
    and [test] (help "Run tests"), rendered by a top-level writer with
    summary and compact off, the detail block ends with the [Commands:]
    section: the header, [build] and its indented help, one empty line,
    [test] and its indented help, and nothing after it. The text wrapper is
    taken to leave each help on one line at the width of the nested writer. *)
Theorem commands_section_two_blocks
    (ToText : string -> string -> string -> Z -> string) (termWidth : Z)
    (name help summary path : string) (args : list Positional.t)
    (groups : list (list Flag.t))
    (n1 p1 n2 p2 : string) (a1 a2 : list Positional.t) (g1 g2 : list (list Flag.t))
    (c1 c2 : list Node.t) (lines : list string) :
  let w := mkHelpWriter "" termWidth (HelpPrinterOptions.mk false false) in
  let build := Node.mk n1 "Build the project" a1 g1 c1 "build" p1 in
  let test := Node.mk n2 "Run tests" a2 g2 c2 "test" p2 in
  let node := Node.mk name help args groups [build; test] summary path in
  ToText "Build the project" "" "    " (int.sub (int.sub termWidth 2) 2)
    = "Build the project" +++ nl ->
  ToText "Run tests" "" "    " (int.sub (int.sub termWidth 2) 2) = "Run tests" +++ nl ->
  printNodeDetail ToText w node lines
  = Some (tt, lines ++ helpBlock ToText w node ++ argumentsBlock ToText w node
                ++ flagsBlock ToText w node
                ++ [""; "Commands:"; "  build"; "    Build the project"; "";
                    "  test"; "    Run tests"]).
Proof.
  intros w build test node Hbuild Htest.
  rewrite appends_printNodeDetail. unfold detailLines.
  cbn [options w HelpPrinterOptions.Summary].
  assert (Hcmds : commandsBlock ToText w node
                  = [""; "Commands:"; "  build"; "    Build the project"; "";
                     "  test"; "    Run tests"]).
  { unfold commandsBlock, node.
    cbn [Node.Leaves options w HelpPrinterOptions.Compact commandBlocks].
    unfold commandLines, build, test. cbn [Node.Summary Node.Help].
    rewrite (wrapLines_of ToText (Indent (Indent w)) "Build the project"
               ("Build the project" +++ nl) Hbuild).
    rewrite (wrapLines_of ToText (Indent (Indent w)) "Run tests"
               ("Run tests" +++ nl) Htest).
    reflexivity. }
  now rewrite Hcmds.
Qed.
Lemma commands_section_two_blocks_witness :
  printNodeDetail doc.ToText (mkHelpWriter "" 80 (HelpPrinterOptions.mk false false))
    (Node.mk "tool" "" [] [] [buildCmd; testCmd] "tool <command>" "") []
  = Some (tt, [""; "Commands:"; "  build"; "    Build the project"; "";
               "  test"; "    Run tests"]).
Proof.
  exact (commands_section_two_blocks doc.ToText 80 "tool" "" "tool <command>" "" [] []
           "build" "build" "test" "test" [] [] [] [] [] [] [] eq_refl eq_refl).
Defined.

Lemma visibleRows_all_hidden haveShort group :
  (forall flag, In flag group -> Flag.Hidden flag = true) ->
  visibleRows haveShort group = [].
Proof.
  intros Hall. unfold visibleRows.
  induction group as [|flag r IH]; [reflexivity|].
  cbn [filter]. rewrite (Hall flag (or_introl eq_refl)). cbn [negb].
  apply IH. intros f Hf. apply Hall. now right.
Qed.

(** C10. In the rows of the flag table every group after the first starts
    with a separator row, whether or not the group has a visible flag: a
    group whose flags are all hidden gives its separator and nothing else.
    The detail block prints the [Flags:] header as soon as the node has a
    group of flags, hidden or not. So a hidden group leaves an empty line at
    the end of the section, or two in a row inside it, and a node whose only
    flag is hidden still gets the header with no row under it. *)
Theorem hidden_group_keeps_separator_and_header :
  (forall groups, flagRows groups = rowsOfGroups (haveShortOf groups) groups)
  /\ (forall first before hidden later,
        (forall flag, In flag hidden -> Flag.Hidden flag = true) ->
        let groups := first :: before ++ hidden :: later in
        let haveShort := haveShortOf groups in
        flagRows groups
        = rowsOfGroups haveShort (first :: before)
          ++ ("", "") :: flat_map (fun g => ("", "") :: visibleRows haveShort g) later)
  /\ (forall ToText w node lines,
        HelpPrinterOptions.Summary (options w) = false ->
        Node.AllFlags node <> [] ->
        printNodeDetail ToText w node lines
        = Some (tt, lines ++ helpBlock ToText w node ++ argumentsBlock ToText w node
                      ++ (lineOf w "" :: lineOf w "Flags:"
                          :: tableLines ToText (Indent w) defaultColumnPadding
                               (flagRows (Node.AllFlags node)))
                      ++ commandsBlock ToText w node))
  /\ helpLines doc.ToText noWidth (HelpPrinterOptions.mk false false)
       (contextOf (appWithFlags [[verboseFlag]; [hiddenFlag]]) None true)
     = Some ["Usage:  app [flags]"; ""; "Flags:";
             "  -v, --verbose    enable verbose output"; ""]
  /\ helpLines doc.ToText noWidth (HelpPrinterOptions.mk false false)
       (contextOf (appWithFlags [[verboseFlag]; [hiddenFlag]; [nameFlag]]) None true)
     = Some ["Usage:  app [flags]"; ""; "Flags:";
             "  -v, --verbose        enable verbose output"; ""; "";
             "      --name=STRING    name to use"]
  /\ helpLines doc.ToText noWidth (HelpPrinterOptions.mk false false)
       (contextOf (appWithFlags [[hiddenFlag]]) None true)
     = Some ["Usage:  app [flags]"; ""; "Flags:"].
Proof.
  split; [exact flagRows_groups|].
  split; [|split; [|repeat split; reflexivity]].
  - intros first before hidden later Hhidden groups haveShort.
    rewrite flagRows_groups. fold haveShort. unfold groups, rowsOfGroups.
    rewrite flat_map_app. cbn [flat_map].
    rewrite (visibleRows_all_hidden haveShort hidden Hhidden).
    rewrite <- !app_assoc. reflexivity.
  - intros ToText w node lines Hsum Hflags.
    rewrite appends_printNodeDetail. unfold detailLines. rewrite Hsum.
    unfold flagsBlock at 1. destruct (Node.AllFlags node) as [|g groups]; [congruence|].
    reflexivity.
Qed.

(** ** Bytes, runes and white space *)

Lemma append_assoc (a b c : string) : (a +++ b) +++ c = a +++ b +++ c.
Proof. induction a as [|x a IH]; simpl; [reflexivity|now rewrite IH]. Qed.

Lemma not_cont_range (b lo hi : N) :
  ((128 <=? b) && (b <=? 191))%N = false -> (128 <= lo)%N -> (hi <= 191)%N ->
  ((lo <=? b) && (b <=? hi))%N = false.
Proof.
  intros Hb Hlo Hhi. apply andb_false_iff.
  apply andb_false_iff in Hb. destruct Hb as [Hb|Hb]; apply N.leb_gt in Hb.
  - left. apply N.leb_gt. lia.
  - right. apply N.leb_gt. lia.
Qed.

(** ** Wrapping at any width *)

Lemma Split_oneLine s : oneLine s = true -> strings.Split s LF = [s].
Proof.
  induction s as [|c r IH]; [reflexivity|].
  cbn [oneLine strings.Split]. intros Hs. apply andb_true_iff in Hs.
  destruct Hs as [Hc Hr]. apply negb_true_iff in Hc. rewrite Hc, (IH Hr). reflexivity.
Qed.

Lemma Split_breaks s :
  oneLine s = false -> exists a b rest, strings.Split s LF = a :: b :: rest.
Proof.
  induction s as [|c r IH]; [discriminate|].
  cbn [oneLine strings.Split]. intros Hs.
  destruct (Ascii.eqb c LF) eqn:Hc.
  - pose proof (Split_nonempty r LF) as Hne.
    destruct (strings.Split r LF) as [|b rest]; [now elim Hne|].
    now exists "", b, rest.
  - cbn [negb andb] in Hs. destruct (IH Hs) as [a [b [rest Hr]]].
    rewrite Hr. now exists (String c a), b, rest.
Qed.

(** C9, as the code has it. [Wrap] and the two-column layout are defined at
    every width, zero and negative ones too: they never fail. But help.go
    does not take such a width as unbounded, it has no case for it. The
    width goes as it is to [doc.ToText] (for the description of a row, the
    width of the buffer less the label column and the padding), and one line
    is stored per line of what [doc.ToText] returns: [Wrap] keeps a text on
    a single line exactly when the trimmed output of [doc.ToText] is a
    single line, and a row takes as many lines as its wrapped description,
    one more when its label has 30 bytes or more. *)
Theorem nonpositive_width_is_left_to_ToText
    (ToText : string -> string -> string -> Z -> string)
    (h : helpWriter) (text : string) (lines : list string) :
  let out := strings.TrimSpace (ToText (strings.TrimSpace text) "" "    " (width h)) in
  Wrap ToText h text lines = Some (tt, lines ++ map (lineOf h) (strings.Split out LF))
  /\ ((exists line, Wrap ToText h text lines = Some (tt, lines ++ [line]))
      <-> oneLine out = true)
  /\ (forall w rows,
        writeTwoColumns ToText w defaultColumnPadding rows lines
        = Some (tt, lines ++ tableLines ToText w defaultColumnPadding rows))
  /\ (forall w rows offsetStr r,
        let residual := int.sub (int.sub (width w) (leftSizeOf rows)) defaultColumnPadding in
        let description :=
          strings.Split (strings.TrimRight (ToText (snd r) "" "  " residual) nl) LF in
        List.length (rowLines ToText w defaultColumnPadding (leftSizeOf rows) offsetStr r)
        = (List.length description + (if (strings.len (fst r) <? 30)%Z then 0 else 1))%nat).
Proof.
  intros out.
  assert (HW : Wrap ToText h text lines
               = Some (tt, lines ++ map (lineOf h) (strings.Split out LF)))
    by (now rewrite appends_Wrap).
  split; [exact HW|]. split; [|split].
  - rewrite HW. split.
    + intros [line Hline]. injection Hline as Hline. apply app_inv_head in Hline.
      destruct (oneLine out) eqn:E; [reflexivity|].
      destruct (Split_breaks out E) as [a [b [rest Hs]]].
      rewrite Hs in Hline. discriminate Hline.
    + intros Hone. rewrite (Split_oneLine out Hone). now exists (lineOf h out).
  - intros w rows. apply appends_writeTwoColumns.
  - intros w rows offsetStr r residual description.
    unfold rowLines. fold residual. fold description.
    pose proof (Split_nonempty (strings.TrimRight (ToText (snd r) "" "  " residual) nl) LF)
      as Hne.
    fold description in Hne.
    destruct (strings.len (fst r) <? 30).
    + destruct description as [|l0 rest]; [now elim Hne|].
      cbn [List.length]. rewrite length_map. lia.
    + cbn [List.length]. rewrite length_map. lia.
Qed.

(** C9 as stated fails: at width 0 a text of one line, 92 runes long, is not
    kept on one line. With the line wrapper of [go/doc] up to Go 1.18 each
    word starts a line; from Go 1.19 a width of 0 stands for 80 runes, which
    the text exceeds as well. *)
Lemma Wrap_width_zero_is_not_unbounded :
  oneLine longText = true
  /\ (exists first second rest,
        Wrap doc.ToText (mkHelpWriter "" 0 (HelpPrinterOptions.mk false false)) longText []
        = Some (tt, first :: second :: rest))
  /\ ~ (forall h text lines,
          width h <= 0 -> oneLine text = true ->
          exists line, Wrap doc.ToText h text lines = Some (tt, lines ++ [line])).
Proof.
  split; [vm_compute; reflexivity|]. split.
  - eexists _, _, _. vm_compute. reflexivity.
  - intros Hall.
    assert (H0 : width (mkHelpWriter "" 0 (HelpPrinterOptions.mk false false)) <= 0)
      by (vm_compute; discriminate).
    assert (H1 : oneLine longText = true) by (vm_compute; reflexivity).
    destruct (Hall _ longText [] H0 H1) as [line Hline].
    vm_compute in Hline. discriminate Hline.
Qed.

(** * Further properties of the printer *)

(** ** Views of the store *)

Lemma replicate_app s n m :
  strings.replicate s (n + m) = strings.replicate s n +++ strings.replicate s m.
Proof.
  induction n as [|n IH]; [reflexivity|].
  cbn [Nat.add strings.replicate]. now rewrite IH, append_assoc.
Qed.

Lemma view_succ w n : view w (S n) = Indent (view w n).
Proof. reflexivity. Qed.

Lemma view_indent w n : indent (view w n) = indent w +++ spaces (2 * n).
Proof.
  induction n as [|n IH].
  - cbn. now rewrite append_empty_r.
  - rewrite view_succ. cbn [Indent indent]. rewrite IH, append_assoc.
    f_equal. unfold spaces.
    replace (2 * S n)%nat with (2 * n + 2)%nat by lia.
    now rewrite replicate_app.
Qed.

Lemma view_options w n : options (view w n) = options w.
Proof. induction n as [|n IH]; [reflexivity|]. rewrite view_succ. exact IH. Qed.

Lemma view_width w n :
  int.inRange (width w) -> int.inRange (width w - 2 * Z.of_nat n) ->
  width (view w n) = width w - 2 * Z.of_nat n.
Proof.
  intros Hw. induction n as [|n IH]; intros Hn.
  - cbn. lia.
  - rewrite view_succ. cbn [Indent width]. unfold int.inRange in *.
    rewrite IH by lia. unfold int.sub. rewrite wrap_small by (unfold int.inRange; lia).
    lia.
Qed.

(** X1. The writer reached by [n] calls of [Indent] has the indent of the
    first one followed by [2 n] spaces, the same options, and, as long as
    the subtraction stays in the range of [int], a width smaller by [2 n]. *)
Theorem Indent_n_times (w : helpWriter) (n : nat) :
  int.inRange (width w) -> int.inRange (width w - 2 * Z.of_nat n) ->
  indent (view w n) = indent w +++ spaces (2 * n)
  /\ width (view w n) = width w - 2 * Z.of_nat n
  /\ options (view w n) = options w.
Proof.
  intros Hw Hn. split; [apply view_indent|]. split; [now apply view_width|].
  apply view_options.
Qed.

Lemma Indent_n_times_witness :
  indent (view (mkHelpWriter "" 80 (HelpPrinterOptions.mk false true)) 3) = "      "
  /\ width (view (mkHelpWriter "" 80 (HelpPrinterOptions.mk false true)) 3) = 74.
Proof.
  destruct (Indent_n_times (mkHelpWriter "" 80 (HelpPrinterOptions.mk false true)) 3)
    as [Hi [Hw _]].
  - vm_compute. split; [discriminate|reflexivity].
  - vm_compute. split; [discriminate|reflexivity].
  - split; [exact Hi|exact Hw].
Defined.

(** ** Trimming *)

Lemma TrimRight_cons_keep c s :
  Ascii.eqb c " " = false ->
  strings.TrimRight (String c s) " " = String c (strings.TrimRight s " ").
Proof.
  intros Hc. cbn [strings.TrimRight strings.inSet]. rewrite Hc. cbn [orb].
  now destruct (strings.TrimRight s " ").
Qed.

Lemma TrimRight_allSpaces s : allSpaces s = true -> strings.TrimRight s " " = "".
Proof.
  induction s as [|c s IH]; [reflexivity|].
  cbn [allSpaces]. intros H. apply andb_true_iff in H. destruct H as [Hc Hs].
  cbn [strings.TrimRight strings.inSet]. rewrite (IH Hs), Hc. reflexivity.
Qed.

Lemma TrimRight_app_allSpaces s t :
  allSpaces t = true -> strings.TrimRight (s +++ t) " " = strings.TrimRight s " ".
Proof.
  intros Ht. induction s as [|c s IH].
  - cbn [String.append]. now apply TrimRight_allSpaces.
  - cbn [String.append strings.TrimRight]. now rewrite IH.
Qed.

Lemma allSpaces_spaces n : allSpaces (spaces n) = true.
Proof. induction n as [|n IH]; [reflexivity|exact IH]. Qed.

Lemma allSpaces_app a b : allSpaces a = true -> allSpaces b = true -> allSpaces (a +++ b) = true.
Proof.
  intros Ha Hb. induction a as [|c a IH]; [exact Hb|].
  cbn [allSpaces String.append] in *. apply andb_true_iff in Ha. destruct Ha as [Hc Ha].
  now rewrite Hc, IH.
Qed.

Lemma lineOf_usage w s :
  indent w = "" -> HasPrefix (lineOf w ("Usage:  " +++ s)) "Usage:" = true.
Proof.
  intros Hi. unfold lineOf. rewrite Hi. cbn [String.append].
  rewrite !TrimRight_cons_keep by reflexivity. reflexivity.
Qed.

(** X2. A render never panics: whatever the model, the options and the
    width, [DefaultHelpPrinter] reaches the flush, and what it returns is the
    result of writing the accumulated lines to the sink. The lines are never
    empty: the first one starts with [Usage:]. *)
Theorem render_reaches_flush {W E : Type} `{Writer W E}
    (ToText : string -> string -> string -> Z -> string) (guessWidth : W -> Z)
    (opts : HelpPrinterOptions.t) (ctx : Context.t W) :
  exists first rest,
    helpLines ToText guessWidth opts ctx = Some (first :: rest)
    /\ HasPrefix first "Usage:" = true
    /\ DefaultHelpPrinter ToText guessWidth opts ctx
       = Some (Write (first :: rest) (Kong.Stdout (Context.App ctx))).
Proof.
  unfold DefaultHelpPrinter. rewrite helpLines_lines. cbv zeta.
  destruct (Context.Selected ctx) as [cmd|].
  - unfold commandPageLines. eexists. eexists. split; [reflexivity|].
    split; [|reflexivity].
    apply (lineOf_usage _ (Application.Name (Kong.Model (Context.App ctx)) +++ " "
                           +++ Node.Summary cmd)). reflexivity.
  - unfold appLines. eexists. eexists. split; [reflexivity|].
    split; [|reflexivity]. now apply lineOf_usage.
Qed.

(** ** The hint, the empty node and the command listing *)

Lemma TrimRight_fixed s : endsInSpace s = false -> strings.TrimRight s " " = s.
Proof.
  induction s as [|c s IH]; [reflexivity|].
  destruct s as [|d r].
  - cbn [endsInSpace strings.TrimRight strings.inSet]. intros ->. reflexivity.
  - intros Hs. change (endsInSpace (String c (String d r)))
      with (endsInSpace (String d r)) in Hs.
    cbn [strings.TrimRight] in *. now rewrite (IH Hs).
Qed.

Lemma endsInSpace_app_r a b : b <> "" -> endsInSpace (a +++ b) = endsInSpace b.
Proof.
  intros Hb. induction a as [|c a IH]; [reflexivity|].
  cbn [String.append]. destruct (a +++ b) eqn:E.
  - destruct a; [now elim Hb|discriminate E].
  - exact IH.
Qed.

Lemma append_nonempty_r a b : b <> "" -> a +++ b <> "".
Proof. intros Hb. destruct a; [exact Hb|discriminate]. Qed.

Lemma lineOf_fixed w s : indent w = "" -> endsInSpace s = false -> lineOf w s = s.
Proof. intros Hi Hs. unfold lineOf. rewrite Hi. now apply TrimRight_fixed. Qed.

Lemma lineOf_empty w : indent w = "" -> lineOf w "" = "".
Proof. intros Hi. unfold lineOf. now rewrite Hi. Qed.

Ltac hint_line Hi :=
  apply (lineOf_fixed _ _ Hi);
  repeat (rewrite endsInSpace_app_r by (repeat apply append_nonempty_r; discriminate));
  reflexivity.

(** X3. The hint of a render. A root render ends with an empty line and the
    hint exactly when the root has commands: [Run "<app> --help" for more
    information.] in summary mode, [Run "<app> <command> --help" for more
    information on a command.] otherwise. A command render ends with an empty
    line and [Run "<app> <path> --help" for more information.] in summary
    mode, and has no hint otherwise. Before the hint come the usage line and
    what [printNodeDetail] adds for the node. *)
Theorem render_hint {W E : Type} `{Writer W E}
    (ToText : string -> string -> string -> Z -> string) (guessWidth : W -> Z)
    (opts : HelpPrinterOptions.t) (ctx : Context.t W) :
  let eff := effective opts ctx in
  let w := newHelpWriter guessWidth ctx eff in
  let app := Kong.Model (Context.App ctx) in
  let summary := HelpPrinterOptions.Summary eff in
  let node := match Context.Selected ctx with
              | None => Application.Node app
              | Some cmd => cmd
              end in
  let hint :=
    match Context.Selected ctx with
    | None =>
        match Application.Leaves app with
        | [] => []
        | _ =>
            [""; if summary
                 then "Run " +++ dq +++ Application.Name app +++ " --help" +++ dq
                      +++ " for more information."
                 else "Run " +++ dq +++ Application.Name app +++ " <command> --help"
                      +++ dq +++ " for more information on a command."]
        end
    | Some cmd =>
        if summary
        then [""; "Run " +++ dq +++ Application.Name app +++ " " +++ Node.Path cmd
                  +++ " --help" +++ dq +++ " for more information."]
        else []
    end in
  exists usage body,
    printNodeDetail ToText w node [usage] = Some (tt, usage :: body)
    /\ helpLines ToText guessWidth opts ctx = Some (usage :: body ++ hint).
Proof.
  intros eff w app summary node hint.
  rewrite helpLines_lines. cbv zeta. fold eff. fold w. fold app.
  assert (Hi : indent w = "") by reflexivity.
  unfold hint, node. destruct (Context.Selected ctx) as [cmd|].
  - exists (lineOf w ("Usage:  " +++ Application.Name app +++ " " +++ Node.Summary cmd)).
    exists (detailLines ToText w cmd). split.
    + now rewrite appends_printNodeDetail.
    + unfold commandPageLines, commandHint.
      change (HelpPrinterOptions.Summary (options w)) with summary.
      destruct summary; [|reflexivity].
      rewrite (lineOf_empty w Hi).
      do 4 f_equal. f_equal. hint_line Hi.
  - exists (lineOf w ("Usage:  " +++ Application.Summary app)).
    exists (detailLines ToText w (Application.Node app)). split.
    + now rewrite appends_printNodeDetail.
    + unfold appLines, appHint.
      change (HelpPrinterOptions.Summary (options w)) with summary.
      destruct (Application.Leaves app); [reflexivity|].
      rewrite (lineOf_empty w Hi). do 4 f_equal. f_equal.
      destruct summary; hint_line Hi.
Qed.

(** X4. A node without help text, positionals, flags and commands adds
    nothing to the store, in any mode, and the render of a root that is such
    a node is its usage line alone. *)
Theorem empty_node_prints_usage_only
    (ToText : string -> string -> string -> Z -> string) (w : helpWriter)
    (node : Node.t) (appName : string) (lines : list string) :
  Node.Help node = "" -> Node.Positional node = [] ->
  Node.AllFlags node = [] -> Node.Leaves node = [] ->
  printNodeDetail ToText w node lines = Some (tt, lines)
  /\ printApp ToText w (Application.mk node appName) lines
     = Some (tt, lines ++ [lineOf w ("Usage:  " +++ Node.Summary node)]).
Proof.
  intros Hh Hp Hf Hl.
  assert (Hd : detailLines ToText w node = []).
  { unfold detailLines, helpBlock, argumentsBlock, flagsBlock, commandsBlock.
    rewrite Hh, Hp, Hf, Hl. cbn. now destruct (HelpPrinterOptions.Summary (options w)). }
  split.
  - now rewrite appends_printNodeDetail, Hd, app_nil_r.
  - rewrite appends_printApp. unfold appLines, appHint, Application.Leaves,
      Application.Summary. cbn [Application.Node]. now rewrite Hd, Hl.
Qed.

Lemma empty_node_prints_usage_only_witness :
  printApp doc.ToText (mkHelpWriter "" 80 (HelpPrinterOptions.mk true false))
    (Application.mk (Node.mk "app" "" [] [] [] "app" "") "app") []
  = Some (tt, ["Usage:  app"]).
Proof.
  exact (proj2 (empty_node_prints_usage_only doc.ToText
                  (mkHelpWriter "" 80 (HelpPrinterOptions.mk true false))
                  (Node.mk "app" "" [] [] [] "app" "") "app" []
                  eq_refl eq_refl eq_refl eq_refl)).
Defined.

Lemma commandBlocks_intercalate
    (ToText : string -> string -> string -> Z -> string) iw cmds :
  commandBlocks ToText iw cmds
  = intercalate [lineOf iw ""] (map (commandLines ToText iw) cmds).
Proof.
  induction cmds as [|cmd rest IH]; [reflexivity|].
  destruct rest as [|cmd' rest']; [reflexivity|].
  change (commandBlocks ToText iw (cmd :: cmd' :: rest'))
    with (commandLines ToText iw cmd ++ lineOf iw "" :: commandBlocks ToText iw (cmd' :: rest')).
  rewrite IH. reflexivity.
Qed.

(** X5. The full command listing, for any number of commands. With summary
    and compact off, [printNodeDetail] ends with an empty line, the
    [Commands:] header and one block per visible command in order: its
    summary, then its wrapped help one level deeper when it has one; two
    blocks are separated by exactly one empty line and nothing follows the
    last block. *)
Theorem commands_listing_blocks
    (ToText : string -> string -> string -> Z -> string) (w : helpWriter)
    (node : Node.t) (lines : list string) :
  HelpPrinterOptions.Summary (options w) = false ->
  HelpPrinterOptions.Compact (options w) = false ->
  Node.Leaves node <> [] ->
  let iw := Indent w in
  let block cmd :=
    lineOf iw (Node.Summary cmd)
    :: (if String.eqb (Node.Help cmd) "" then []
        else wrapLines ToText (Indent iw) (Node.Help cmd)) in
  exists before,
    printNodeDetail ToText w node lines
    = Some (tt, lines ++ before ++ lineOf w "" :: lineOf w "Commands:"
                  :: intercalate [lineOf iw ""] (map block (Node.Leaves node))).
Proof.
  intros Hs Hc Hl iw block.
  exists (helpBlock ToText w node ++ argumentsBlock ToText w node
          ++ flagsBlock ToText w node).
  rewrite appends_printNodeDetail. unfold detailLines. rewrite Hs.
  unfold commandsBlock. destruct (Node.Leaves node) as [|c cmds]; [congruence|].
  rewrite Hc, commandBlocks_intercalate. rewrite <- !app_assoc. reflexivity.
Qed.

Lemma commands_listing_blocks_witness :
  exists before,
    printNodeDetail doc.ToText (mkHelpWriter "" 80 (HelpPrinterOptions.mk false false))
      (Application.Node toolApp) []
    = Some (tt, [] ++ before ++ "" :: "Commands:"
                  :: ["  build"; "    Build the project"; ""; "  test"; "    Run tests"]).
Proof.
  exact (commands_listing_blocks doc.ToText
           (mkHelpWriter "" 80 (HelpPrinterOptions.mk false false))
           (Application.Node toolApp) [] eq_refl eq_refl
           ltac:(discriminate)).
Defined.

(** X6. The compact command listing. With summary off and compact on,
    [printNodeDetail] ends with an empty line, the [Commands:] header and
    what the two-column layout prints, one level deeper, for the rows made
    of the path and the help of each command in order. *)
Theorem commands_listing_compact
    (ToText : string -> string -> string -> Z -> string) (w : helpWriter)
    (node : Node.t) (lines : list string) :
  HelpPrinterOptions.Summary (options w) = false ->
  HelpPrinterOptions.Compact (options w) = true ->
  Node.Leaves node <> [] ->
  exists before table,
    writeTwoColumns ToText (Indent w) defaultColumnPadding
      (map (fun cmd => (Node.Path cmd, Node.Help cmd)) (Node.Leaves node)) []
    = Some (tt, table)
    /\ (List.length (Node.Leaves node) <= List.length table)%nat
    /\ printNodeDetail ToText w node lines
       = Some (tt, lines ++ before ++ lineOf w "" :: lineOf w "Commands:" :: table).
Proof.
  intros Hs Hc Hl.
  exists (helpBlock ToText w node ++ argumentsBlock ToText w node
          ++ flagsBlock ToText w node).
  exists (tableLines ToText (Indent w) defaultColumnPadding
            (map (fun cmd => (Node.Path cmd, Node.Help cmd)) (Node.Leaves node))).
  split; [now rewrite appends_writeTwoColumns|]. split.
  - unfold tableLines.
    generalize (rowLines_nonempty ToText (Indent w) defaultColumnPadding
                  (leftSizeOf (map (fun cmd => (Node.Path cmd, Node.Help cmd))
                                   (Node.Leaves node)))
                  (strings.replicate " "
                     (Z.to_nat (int.add
                        (leftSizeOf (map (fun cmd => (Node.Path cmd, Node.Help cmd))
                                         (Node.Leaves node)))
                        defaultColumnPadding)))).
    generalize (rowLines ToText (Indent w) defaultColumnPadding
                  (leftSizeOf (map (fun cmd => (Node.Path cmd, Node.Help cmd))
                                   (Node.Leaves node)))
                  (strings.replicate " "
                     (Z.to_nat (int.add
                        (leftSizeOf (map (fun cmd => (Node.Path cmd, Node.Help cmd))
                                         (Node.Leaves node)))
                        defaultColumnPadding)))).
    intros f Hf. clear Hl. induction (Node.Leaves node) as [|c cmds IH]; [cbn; lia|].
    cbn [map flat_map List.length]. rewrite length_app.
    specialize (Hf (Node.Path c, Node.Help c)).
    destruct (f (Node.Path c, Node.Help c)); [now elim Hf|]. cbn [List.length]. lia.
  - rewrite appends_printNodeDetail. unfold detailLines. rewrite Hs.
    unfold commandsBlock. destruct (Node.Leaves node) as [|c cmds]; [congruence|].
    rewrite Hc. rewrite <- !app_assoc. reflexivity.
Qed.

Lemma commands_listing_compact_witness :
  exists before table,
    writeTwoColumns doc.ToText
      (Indent (mkHelpWriter "" 80 (HelpPrinterOptions.mk false true)))
      defaultColumnPadding
      (map (fun cmd => (Node.Path cmd, Node.Help cmd))
           (Node.Leaves (Application.Node toolApp))) []
    = Some (tt, table)
    /\ (List.length (Node.Leaves (Application.Node toolApp)) <= List.length table)%nat
    /\ printNodeDetail doc.ToText (mkHelpWriter "" 80 (HelpPrinterOptions.mk false true))
         (Application.Node toolApp) []
       = Some (tt, [] ++ before ++ "" :: "Commands:" :: table).
Proof.
  exact (commands_listing_compact doc.ToText
           (mkHelpWriter "" 80 (HelpPrinterOptions.mk false true))
           (Application.Node toolApp) [] eq_refl eq_refl ltac:(discriminate)).
Defined.

(** ** Rune counts *)

Lemma between_not_cont c lo hi :
  utf8.cont c = false -> (128 <= lo)%N -> (hi <= 191)%N -> utf8.between lo hi c = false.
Proof. unfold utf8.cont, utf8.between. intros Hc Hlo Hhi. now apply not_cont_range. Qed.

Ltac split_ifs :=
  repeat match goal with
         | |- context [if ?b then _ else _] => destruct b
         end.

Lemma runeLen_one c t : boundary t -> utf8.runeLen (String c t) = 1%nat.
Proof.
  intros Ht. unfold utf8.runeLen. cbv zeta.
  destruct t as [|c1 r1]; [now split_ifs|].
  cbn [boundary] in Ht. rewrite Ht.
  destruct (byte c =? 224)%N, (byte c =? 237)%N, (byte c =? 240)%N, (byte c =? 244)%N;
    rewrite ?(between_not_cont c1 _ _ Ht) by lia;
    cbn [andb]; destruct r1 as [|c2 [|c3 r3]]; split_ifs; reflexivity.
Qed.

Lemma runeLen_two c c1 t :
  boundary t -> utf8.runeLen (String c (String c1 t)) = utf8.runeLen (String c (String c1 "")).
Proof.
  intros Ht. unfold utf8.runeLen. cbv zeta.
  destruct (byte c <? 128)%N; [reflexivity|].
  destruct ((194 <=? byte c)%N && (byte c <=? 223)%N); [reflexivity|].
  destruct t as [|c2 r2]; [reflexivity|].
  cbn [boundary] in Ht. rewrite Ht. rewrite !andb_false_r. cbn [andb].
  destruct r2; split_ifs; reflexivity.
Qed.

Lemma runeLen_three c c1 c2 t :
  boundary t ->
  utf8.runeLen (String c (String c1 (String c2 t)))
  = utf8.runeLen (String c (String c1 (String c2 ""))).
Proof.
  intros Ht. unfold utf8.runeLen. cbv zeta.
  destruct (byte c <? 128)%N; [reflexivity|].
  destruct ((194 <=? byte c)%N && (byte c <=? 223)%N); [reflexivity|].
  destruct ((224 <=? byte c)%N && (byte c <=? 239)%N); [reflexivity|].
  destruct t as [|c3 r3]; [reflexivity|].
  cbn [boundary] in Ht. rewrite Ht. rewrite !andb_false_r. cbn [andb].
  split_ifs; reflexivity.
Qed.

Lemma runeLen_app_boundary c r t :
  boundary t -> utf8.runeLen (String c r +++ t) = utf8.runeLen (String c r).
Proof.
  intros Ht. destruct r as [|c1 [|c2 [|c3 r]]]; cbn [String.append].
  - rewrite (runeLen_one c t Ht). now rewrite (runeLen_one c "" I).
  - now apply runeLen_two.
  - now apply runeLen_three.
  - reflexivity.
Qed.

Lemma runeLen_le s : (utf8.runeLen s <= String.length s)%nat.
Proof.
  unfold utf8.runeLen. cbv zeta.
  destruct s as [|c0 [|c1 [|c2 [|c3 r]]]]; cbn [String.length]; split_ifs; lia.
Qed.

Lemma countFrom_app s t : forall skip,
  (skip <= String.length s)%nat -> boundary t ->
  utf8.countFrom skip (s +++ t) = (utf8.countFrom skip s + utf8.countFrom 0 t)%nat.
Proof.
  induction s as [|c r IH]; intros skip Hskip Ht.
  - cbn in Hskip. replace skip with 0%nat by lia. reflexivity.
  - cbn [String.append utf8.countFrom]. destruct skip as [|k].
    + change (String c (r +++ t)) with (String c r +++ t).
      rewrite (runeLen_app_boundary c r t Ht).
      rewrite IH; [reflexivity| |exact Ht].
      pose proof (runeLen_le (String c r)) as Hle. cbn [String.length] in Hle. lia.
    + apply IH; [|exact Ht]. cbn [String.length] in Hskip. lia.
Qed.

Lemma countFrom_le s : forall skip, (utf8.countFrom skip s <= String.length s)%nat.
Proof.
  induction s as [|c r IH]; intros skip; [cbn; lia|].
  cbn [utf8.countFrom String.length]. destruct skip as [|k].
  - specialize (IH (Nat.pred (utf8.runeLen (String c r)))). lia.
  - specialize (IH k). lia.
Qed.

Lemma countFrom_spaces n : utf8.countFrom 0 (spaces n) = n.
Proof.
  induction n as [|n IH]; [reflexivity|].
  change (spaces (S n)) with (String " " (spaces n)).
  cbn [utf8.countFrom]. change (utf8.runeLen (String " " (spaces n))) with 1%nat.
  cbn [Nat.pred]. now rewrite IH.
Qed.

Lemma boundary_spaces n : boundary (spaces n).
Proof. destruct n; [exact I|reflexivity]. Qed.

Lemma RuneCount_app_spaces s n :
  utf8.RuneCountInString (s +++ spaces n) = utf8.RuneCountInString s + Z.of_nat n.
Proof.
  unfold utf8.RuneCountInString.
  rewrite countFrom_app by (try lia; apply boundary_spaces).
  rewrite countFrom_spaces. lia.
Qed.

Lemma RuneCount_le_len s : 0 <= utf8.RuneCountInString s <= strings.len s.
Proof.
  unfold utf8.RuneCountInString, strings.len.
  pose proof (countFrom_le s 0). lia.
Qed.

(** ** The rows of the two-column layout *)

Lemma padS_left_small leftSize s :
  0 <= leftSize < 30 ->
  fmt.padS true leftSize s
  = s +++ spaces (Z.to_nat (leftSize - utf8.RuneCountInString s)).
Proof.
  intros Hl. unfold fmt.padS, fmt.tooLarge.
  replace (1000000 <? leftSize) with false by (symmetry; apply Z.ltb_ge; lia).
  replace (leftSize <? -1000000) with false by (symmetry; apply Z.ltb_ge; lia).
  cbn [orb]. rewrite Z.abs_eq by lia. reflexivity.
Qed.

Lemma spaces_app n m : spaces n +++ spaces m = spaces (n + m).
Proof. unfold spaces. now rewrite replicate_app. Qed.

Lemma lineOf_app_spaces w s n : lineOf w (s +++ spaces n) = lineOf w s.
Proof.
  unfold lineOf. rewrite <- append_assoc.
  apply TrimRight_app_allSpaces, allSpaces_spaces.
Qed.

(** X7. The layout of a table, row by row. A row whose label is shorter
    than 30 bytes starts with the label, spaces up to the column width plus
    the padding of 4, and the first line of its wrapped description; the
    other lines of the description follow, each after an offset of column
    width plus 4 spaces. A row whose label has 30 bytes or more prints the
    label alone, without padding, and every line of the description after
    the offset. *)
Theorem two_column_row_layout
    (ToText : string -> string -> string -> Z -> string) (w : helpWriter)
    (rows : list row) (lines : list string) :
  let leftSize := leftSizeOf rows in
  let offsetStr := spaces (Z.to_nat (leftSize + 4)) in
  let description (r : row) :=
    strings.Split
      (strings.TrimRight
         (ToText (snd r) "" "  " (int.sub (int.sub (width w) leftSize) 4)) nl) LF in
  let layout (r : row) :=
    if strings.len (fst r) <? 30 then
      lineOf w (fst r
                +++ spaces (Z.to_nat (leftSize - utf8.RuneCountInString (fst r)) + 4)
                +++ hd "" (description r))
      :: map (fun l => lineOf w (offsetStr +++ l)) (tl (description r))
    else
      lineOf w (fst r) :: map (fun l => lineOf w (offsetStr +++ l)) (description r) in
  writeTwoColumns ToText w defaultColumnPadding rows lines
  = Some (tt, lines ++ flat_map layout rows).
Proof.
  intros leftSize offsetStr description layout.
  rewrite appends_writeTwoColumns. unfold tableLines. fold leftSize.
  pose proof (leftSizeOf_range rows) as Hr. fold leftSize in Hr.
  replace (int.add leftSize defaultColumnPadding) with (leftSize + 4)
    by (symmetry; apply add_padding_default).
  change (strings.replicate " " (Z.to_nat (leftSize + 4))) with offsetStr.
  do 3 f_equal. apply flat_map_ext. intros r.
  unfold rowLines, layout. rewrite (padS_left_small leftSize (fst r) Hr).
  change defaultColumnPadding with 4.
  fold (description r).
  destruct (strings.len (fst r) <? 30).
  - destruct (description r) as [|l0 rest] eqn:Hd.
    + unfold description in Hd. now apply Split_nonempty in Hd.
    + cbn [hd tl]. f_equal. f_equal.
      change (fmt.padS false 4 "") with (spaces 4).
      rewrite append_assoc. rewrite <- (append_assoc (spaces _) (spaces 4) l0).
      now rewrite spaces_app.
  - f_equal. apply lineOf_app_spaces.
Qed.

Lemma len_le_leftSizeOf (rows : list row) (r : row) :
  In r rows -> strings.len (fst r) < 30 -> strings.len (fst r) <= leftSizeOf rows.
Proof.
  intros Hin Hlt. rewrite leftSizeOf_max. unfold maxLabelBelowCutoff.
  induction rows as [|r' rows IH]; [now elim Hin|].
  cbn [map filter]. destruct Hin as [->|Hin].
  - replace (strings.len (fst r) <? 30) with true by (symmetry; apply Z.ltb_lt; lia).
    cbn [fold_right]. lia.
  - specialize (IH Hin). destruct (strings.len (fst r') <? 30); cbn [fold_right]; lia.
Qed.

(** X8. Alignment. In every row whose label is shorter than 30 bytes, what
    stands before the description (the label and its padding) counts exactly
    column width plus 4 runes, as many as the offset before the continuation
    lines: all descriptions of these rows start in the same column. *)
Theorem two_column_alignment (rows : list row) (r : row) :
  In r rows -> strings.len (fst r) < 30 ->
  let leftSize := leftSizeOf rows in
  utf8.RuneCountInString
    (fst r +++ spaces (Z.to_nat (leftSize - utf8.RuneCountInString (fst r)) + 4))
  = leftSize + 4
  /\ utf8.RuneCountInString (spaces (Z.to_nat (leftSize + 4))) = leftSize + 4.
Proof.
  intros Hin Hlt leftSize.
  pose proof (len_le_leftSizeOf rows r Hin Hlt) as Hle. fold leftSize in Hle.
  pose proof (RuneCount_le_len (fst r)) as Hrc.
  pose proof (leftSizeOf_range rows) as Hr. fold leftSize in Hr.
  split.
  - rewrite RuneCount_app_spaces. lia.
  - change (spaces (Z.to_nat (leftSize + 4))) with ("" +++ spaces (Z.to_nat (leftSize + 4))).
    rewrite RuneCount_app_spaces. cbn. lia.
Qed.

Lemma two_column_alignment_witness :
  utf8.RuneCountInString ("-v, --verbose" +++ spaces (Z.to_nat (17 - 13) + 4)) = 17 + 4.
Proof.
  exact (proj1 (two_column_alignment
                  [("-v, --verbose", "x"); ("    --name=STRING", "z")]
                  ("-v, --verbose", "x") (or_introl eq_refl) eq_refl)).
Defined.

(** X9. A separator row, empty label and empty description, prints one empty
    line: for a writer whose indent is made of spaces (as that of every
    writer of a render) and a text wrapper that writes nothing for the empty
    text. *)
Theorem separator_row_prints_empty_line
    (ToText : string -> string -> string -> Z -> string) (w : helpWriter)
    (rows : list row) (offsetStr : string) (lines : list string) :
  allSpaces (indent w) = true ->
  ToText "" "" "  " (int.sub (int.sub (width w) (leftSizeOf rows)) defaultColumnPadding) = "" ->
  writeRow ToText w defaultColumnPadding (leftSizeOf rows) offsetStr ("", "") lines
  = Some (tt, lines ++ [""]).
Proof.
  intros Hi Ht. rewrite appends_writeRow. unfold rowLines. cbn [fst snd].
  rewrite Ht. cbn [strings.TrimRight strings.len String.length Z.of_nat Z.ltb Z.compare
                   strings.Split map].
  rewrite (padS_left_small _ "" (leftSizeOf_range rows)).
  change (fmt.padS false defaultColumnPadding "") with (spaces 4).
  do 4 f_equal. unfold lineOf. apply TrimRight_allSpaces.
  repeat apply allSpaces_app;
    first [exact Hi | apply allSpaces_spaces | reflexivity].
Qed.

Lemma separator_row_prints_empty_line_witness :
  writeRow doc.ToText (Indent (mkHelpWriter "" 80 (HelpPrinterOptions.mk false false)))
    defaultColumnPadding (leftSizeOf [("-v, --verbose", "x"); ("", "")])
    "                 " ("", "") ["Flags:"]
  = Some (tt, ["Flags:"] ++ [""]).
Proof.
  exact (separator_row_prints_empty_line doc.ToText
           (Indent (mkHelpWriter "" 80 (HelpPrinterOptions.mk false false)))
           [("-v, --verbose", "x"); ("", "")] "                 " ["Flags:"]
           eq_refl eq_refl).
Defined.

(** X10. When [writeTwoColumns] panics. With a padding so negative that
    column width plus padding is below zero, [strings.Repeat] panics before
    any row is printed. No call in help.go can cause it: with the padding of
    4 that [writeFlags], [writePositionals] and the compact command list
    pass, the count handed to [strings.Repeat] lies between 4 and 33 for any
    rows, and the layout goes through and appends the rows to the store. *)
Theorem writeTwoColumns_negative_offset_panics
    (ToText : string -> string -> string -> Z -> string) (w : helpWriter)
    (padding : Z) (rows : list row) (lines : list string) :
  (int.add (leftSizeOf rows) padding < 0 ->
   writeTwoColumns ToText w padding rows lines = None)
  /\ 4 <= int.add (leftSizeOf rows) defaultColumnPadding <= 33
  /\ writeTwoColumns ToText w defaultColumnPadding rows lines
     = Some (tt, lines ++ tableLines ToText w defaultColumnPadding rows).
Proof.
  split; [|split].
  - intros Hp. unfold writeTwoColumns, strings.Repeat.
    replace (int.add (leftSizeOf rows) padding <? 0) with true
      by (symmetry; apply Z.ltb_lt; lia).
    reflexivity.
  - rewrite add_padding_default. pose proof (leftSizeOf_range rows). lia.
  - apply appends_writeTwoColumns.
Qed.

Lemma writeTwoColumns_negative_offset_panics_witness :
  writeTwoColumns doc.ToText (mkHelpWriter "" 80 (HelpPrinterOptions.mk false false)) (-20)
    [("<src>", "file to read"); ("<dst>", "where to write it")] ["Arguments:"]
  = None.
Proof.
  assert (H0 : int.add (leftSizeOf [("<src>", "file to read"); ("<dst>", "where to write it")])
                       (-20) < 0)
    by (vm_compute; reflexivity).
  exact (proj1 (writeTwoColumns_negative_offset_panics doc.ToText
                  (mkHelpWriter "" 80 (HelpPrinterOptions.mk false false)) (-20)
                  [("<src>", "file to read"); ("<dst>", "where to write it")]
                  ["Arguments:"]) H0).
Defined.

(** ** The rows of the flag table *)

Lemma In_visibleRows haveShort group flag :
  In flag group -> Flag.Hidden flag = false ->
  In (formatFlag haveShort flag, Flag.Help flag) (visibleRows haveShort group).
Proof.
  intros Hin Hv. unfold visibleRows.
  apply (in_map (fun f => (formatFlag haveShort f, Flag.Help f))).
  apply filter_In. split; [exact Hin|]. now rewrite Hv.
Qed.

Lemma In_rowsOfGroups haveShort groups group flag :
  In group groups -> In flag group -> Flag.Hidden flag = false ->
  In (formatFlag haveShort flag, Flag.Help flag) (rowsOfGroups haveShort groups).
Proof.
  intros Hg Hf Hv. destruct groups as [|g0 rest]; [now elim Hg|].
  unfold rowsOfGroups. apply in_or_app. destruct Hg as [->|Hg].
  - left. now apply In_visibleRows.
  - right. apply in_flat_map. exists group. split; [exact Hg|].
    right. now apply In_visibleRows.
Qed.

(** X11. A hidden flag counts for the alignment. If some flag of the groups
    has a short form, be it a hidden flag and the only one, every visible
    flag without a short form is listed with the four spaces before its
    [--name]. *)
Theorem hidden_short_flag_still_reserves (groups : list (list Flag.t))
    (hiddenOne : Flag.t) (group : list Flag.t) (flag : Flag.t) :
  In hiddenOne (List.concat groups) -> Flag.Hidden hiddenOne = true ->
  Flag.Short hiddenOne <> 0 ->
  In group groups -> In flag group ->
  Flag.Hidden flag = false -> Flag.Short flag = 0 ->
  In ("    --" +++ Flag.Name flag +++ valueSuffix flag, Flag.Help flag) (flagRows groups).
Proof.
  intros Hh _ Hs Hg Hf Hv Hz.
  rewrite flagRows_groups.
  assert (Hshort : haveShortOf groups = true) by (apply haveShortOf_true; eauto).
  rewrite Hshort.
  rewrite <- (formatFlag_long_only true flag Hz).
  now apply (In_rowsOfGroups true groups group flag).
Qed.

Lemma hidden_short_flag_still_reserves_witness :
  In ("    --" +++ Flag.Name nameFlag +++ valueSuffix nameFlag, Flag.Help nameFlag)
     (flagRows [[nameFlag; hiddenFlag]]).
Proof.
  apply (hidden_short_flag_still_reserves [[nameFlag; hiddenFlag]] hiddenFlag
           [nameFlag; hiddenFlag] nameFlag).
  - right. left. reflexivity.
  - reflexivity.
  - vm_compute. discriminate.
  - left. reflexivity.
  - left. reflexivity.
  - reflexivity.
  - reflexivity.
Defined.

Lemma length_visibleRows haveShort group :
  List.length (visibleRows haveShort group) = List.length (filter visible group).
Proof. unfold visibleRows. now rewrite length_map. Qed.

Lemma length_separated haveShort rest :
  List.length (flat_map (fun g => ("", "") :: visibleRows haveShort g) rest)
  = (List.length (filter visible (List.concat rest)) + List.length rest)%nat.
Proof.
  induction rest as [|g rest IH]; [reflexivity|].
  cbn [flat_map List.concat List.length]. rewrite filter_app, !length_app.
  cbn [List.length]. rewrite IH, length_visibleRows. lia.
Qed.

(** X12. The number of rows of the flag table: one per visible flag, and one
    separator for every group but the first. *)
Theorem flagRows_count (groups : list (list Flag.t)) :
  List.length (flagRows groups)
  = (List.length (filter visible (List.concat groups)) + Nat.pred (List.length groups))%nat.
Proof.
  rewrite flagRows_groups. destruct groups as [|g rest]; [reflexivity|].
  unfold rowsOfGroups. cbn [List.concat List.length Nat.pred].
  rewrite filter_app, !length_app, length_visibleRows, length_separated. lia.
Qed.

(** ** The store as one text *)

Lemma Split_oneLine_app f u :
  oneLine f = true ->
  strings.Split (f +++ u) LF
  = match strings.Split u LF with
    | [] => [f]
    | h :: t => (f +++ h) :: t
    end.
Proof.
  pose proof (Split_nonempty u LF) as Hu.
  induction f as [|c f IH]; intros Hf.
  - cbn [String.append]. destruct (strings.Split u LF); [now elim Hu|reflexivity].
  - cbn [oneLine] in Hf. apply andb_true_iff in Hf. destruct Hf as [Hc Hf].
    cbn [String.append strings.Split].
    apply negb_true_iff in Hc. rewrite Hc.
    rewrite (IH Hf). destruct (strings.Split u LF); [now elim Hu|reflexivity].
Qed.

(** X13. [String] and a split at the line feeds are inverse to each other on
    a store that is not empty and whose lines hold no line feed: the text
    that [String] gives, split at the line feeds, is the store again. *)
Theorem String_then_Split (lines : list string) :
  lines <> [] -> Forall (fun line => oneLine line = true) lines ->
  strings.Split (String_ lines) LF = lines.
Proof.
  unfold String_. induction lines as [|l rest IH]; intros Hne Hall; [now elim Hne|].
  inversion Hall as [|? ? Hl Hrest]; subst.
  destruct rest as [|l' rest'].
  - cbn [strings.Join]. rewrite <- (append_empty_r l) at 1.
    rewrite (Split_oneLine_app l "" Hl). cbn. now rewrite append_empty_r.
  - change (strings.Join (l :: l' :: rest') nl)
      with (l +++ nl +++ strings.Join (l' :: rest') nl).
    rewrite (Split_oneLine_app l _ Hl).
    unfold nl at 1. cbn [String.append strings.Split].
    change (Ascii.eqb LF LF) with true. cbv iota.
    rewrite IH by (try discriminate; assumption).
    now rewrite append_empty_r.
Qed.

Lemma String_then_Split_witness :
  strings.Split (String_ ["Usage:  app"; ""; "Flags:"]) LF = ["Usage:  app"; ""; "Flags:"].
Proof.
  apply (String_then_Split ["Usage:  app"; ""; "Flags:"]).
  - discriminate.
  - repeat constructor.
Defined.

Lemma concatAll_terminated lines :
  lines <> [] -> concatAll (map terminated lines) = String_ lines +++ nl.
Proof.
  unfold String_. induction lines as [|l rest IH]; intros Hne; [now elim Hne|].
  destruct rest as [|l' rest']; [cbn; now rewrite append_empty_r|].
  change (strings.Join (l :: l' :: rest') nl)
    with (l +++ nl +++ strings.Join (l' :: rest') nl).
  cbn [map concatAll fold_right] in *. rewrite IH by discriminate.
  unfold terminated. now rewrite !append_assoc.
Qed.

(** X14. What [Write] sends and what [String] returns. On a sink that
    accepts every write, the texts written for a store that is not empty
    are, put together, the text of [String] followed by one line feed; and
    nothing is written for the empty store. *)
Theorem Write_sends_String (lines : list string) (k : nat) :
  (List.length lines <= k)%nat ->
  let result := Write lines (mkBudgetSink k []) in
  snd result = None
  /\ written (fst result) = map terminated lines
  /\ (lines <> [] -> concatAll (written (fst result)) = String_ lines +++ nl)
  /\ (lines = [] -> written (fst result) = []).
Proof.
  intros Hk result. unfold result. rewrite Write_budgetSink.
  replace (k <? List.length lines)%nat with false by (symmetry; apply Nat.ltb_ge; lia).
  cbn [fst snd written app]. split; [reflexivity|]. split; [reflexivity|]. split.
  - apply concatAll_terminated.
  - intros ->. reflexivity.
Qed.

Lemma Write_sends_String_witness :
  written (fst (Write ["Usage:  app"; ""; "Flags:"] (mkBudgetSink 5 [])))
  = map terminated ["Usage:  app"; ""; "Flags:"].
Proof.
  assert (Hk : (List.length ["Usage:  app"; ""; "Flags:"] <= 5)%nat) by (vm_compute; lia).
  exact (proj1 (proj2 (Write_sends_String ["Usage:  app"; ""; "Flags:"] 5 Hk))).
Defined.

(** ** The store only grows *)

Lemma runOps_appends (ToText : string -> string -> string -> Z -> string) w ops :
  exists out, appends (runOps ToText w ops) out /\ (List.length ops <= List.length out)%nat.
Proof.
  unfold runOps, forEach. generalize 0%nat.
  induction ops as [|op ops IH]; intros i.
  - exists []. split; [apply appends_ret|cbn; lia].
  - destruct (IH (S i)) as [out [Hout Hlen]].
    destruct op as [depth text|depth text].
    + exists ([lineOf (view w depth) text] ++ out). split.
      * cbn [forRange]. apply appends_bind; [apply appends_Print|exact Hout].
      * cbn [List.length app]. lia.
    + exists (wrapLines ToText (view w depth) text ++ out). split.
      * cbn [forRange]. apply appends_bind; [apply appends_Wrap|exact Hout].
      * pose proof (wrapLines_nonempty ToText (view w depth) text) as Hne.
        rewrite length_app. cbn [List.length].
        destruct (wrapLines ToText (view w depth) text); [now elim Hne|].
        cbn [List.length]. lia.
Qed.

(** X15. The store only grows. Any sequence of [Print], [Printf] and [Wrap],
    through whatever views of the store, leaves the lines that were there
    untouched, in place, and adds at least one line per operation; no
    operation fails. *)
Theorem store_is_append_only
    (ToText : string -> string -> string -> Z -> string) (w : helpWriter)
    (ops : list bufferOp) (lines : list string) :
  exists out,
    runOps ToText w ops lines = Some (tt, lines ++ out)
    /\ (List.length ops <= List.length out)%nat.
Proof.
  destruct (runOps_appends ToText w ops) as [out [Hout Hlen]].
  exists out. split; [apply Hout|exact Hlen].
Qed.

Lemma oneLine_app a b : oneLine (a +++ b) = oneLine a && oneLine b.
Proof.
  induction a as [|c a IH]; [reflexivity|].
  cbn [String.append oneLine]. now rewrite IH, andb_assoc.
Qed.

Lemma oneLine_TrimRight s cutset :
  oneLine s = true -> oneLine (strings.TrimRight s cutset) = true.
Proof.
  induction s as [|c s IH]; [reflexivity|].
  cbn [oneLine strings.TrimRight]. intros H. apply andb_true_iff in H.
  destruct H as [Hc Hs]. specialize (IH Hs).
  destruct (strings.TrimRight s cutset) as [|d r].
  - destruct (strings.inSet c cutset); [reflexivity|]. cbn [oneLine]. now rewrite Hc.
  - cbn [oneLine] in *. now rewrite Hc, IH.
Qed.

Lemma oneLine_Split s : Forall (fun piece => oneLine piece = true) (strings.Split s LF).
Proof.
  induction s as [|c s IH]; [repeat constructor|].
  cbn [strings.Split]. destruct (Ascii.eqb c LF) eqn:Hc.
  - constructor; [reflexivity|exact IH].
  - destruct (strings.Split s LF) as [|h t]; [repeat constructor; cbn; now rewrite Hc|].
    inversion IH as [|? ? Hh Ht]; subst.
    constructor; [|exact Ht]. cbn [oneLine]. now rewrite Hc, Hh.
Qed.

(** X16. [Wrap] stores lines. Whatever the text wrapper returns, each entry
    that [Wrap] adds to the store is a single line, without a line feed in
    it, provided the indent of the writer holds none; and [Wrap] adds at
    least one entry, also for an empty text. *)
Theorem Wrap_stores_single_lines
    (ToText : string -> string -> string -> Z -> string) (h : helpWriter)
    (text : string) (lines : list string) :
  oneLine (indent h) = true ->
  exists out,
    Wrap ToText h text lines = Some (tt, lines ++ out)
    /\ out <> []
    /\ Forall (fun line => oneLine line = true) out.
Proof.
  intros Hi. exists (wrapLines ToText h text).
  split; [apply appends_Wrap|]. split; [apply wrapLines_nonempty|].
  unfold wrapLines. apply Forall_forall. intros line Hin.
  apply in_map_iff in Hin. destruct Hin as [piece [<- Hp]].
  unfold lineOf. apply oneLine_TrimRight. rewrite oneLine_app, Hi.
  apply (proj1 (Forall_forall _ _) (oneLine_Split _) piece Hp).
Qed.

Lemma Wrap_stores_single_lines_witness :
  exists out,
    Wrap doc.ToText (mkHelpWriter "  " 10 (HelpPrinterOptions.mk false false))
         "enable verbose output" []
    = Some (tt, [] ++ out)
    /\ out <> []
    /\ Forall (fun line => oneLine line = true) out.
Proof.
  exact (Wrap_stores_single_lines doc.ToText
           (mkHelpWriter "  " 10 (HelpPrinterOptions.mk false false))
           "enable verbose output" [] eq_refl).
Defined.

(** ** The short form of a flag *)

Lemma byte_byteOf z : 0 <= z < 256 -> byte (utf8.byteOf z) = Z.to_N z.
Proof.
  intros Hz. unfold byte, utf8.byteOf. apply N_ascii_embedding. lia.
Qed.

Lemma count_one c : utf8.countFrom 0 (String c "") = 1%nat.
Proof. reflexivity. Qed.

Lemma count_two b0 b1 :
  194 <= b0 <= 223 -> 128 <= b1 <= 191 ->
  utf8.countFrom 0 (String (utf8.byteOf b0) (String (utf8.byteOf b1) "")) = 1%nat.
Proof.
  intros H0 H1. cbn [utf8.countFrom].
  assert (Hl : utf8.runeLen (String (utf8.byteOf b0) (String (utf8.byteOf b1) "")) = 2%nat).
  { unfold utf8.runeLen, utf8.cont. rewrite !byte_byteOf by lia.
    replace (Z.to_N b0 <? 128)%N with false by (symmetry; apply N.ltb_ge; lia).
    replace (194 <=? Z.to_N b0)%N with true by (symmetry; apply N.leb_le; lia).
    replace (Z.to_N b0 <=? 223)%N with true by (symmetry; apply N.leb_le; lia).
    replace (128 <=? Z.to_N b1)%N with true by (symmetry; apply N.leb_le; lia).
    replace (Z.to_N b1 <=? 191)%N with true by (symmetry; apply N.leb_le; lia).
    reflexivity. }
  rewrite Hl. reflexivity.
Qed.

Lemma count_three b0 b1 b2 :
  224 <= b0 <= 239 -> 128 <= b1 <= 191 -> 128 <= b2 <= 191 ->
  (b0 = 224 -> 160 <= b1) -> (b0 = 237 -> b1 <= 159) ->
  utf8.countFrom 0
    (String (utf8.byteOf b0) (String (utf8.byteOf b1) (String (utf8.byteOf b2) "")))
  = 1%nat.
Proof.
  intros H0 H1 H2 Hlo Hhi. cbn [utf8.countFrom].
  assert (Hl : utf8.runeLen
                 (String (utf8.byteOf b0)
                    (String (utf8.byteOf b1) (String (utf8.byteOf b2) ""))) = 3%nat).
  { unfold utf8.runeLen, utf8.cont, utf8.between. rewrite !byte_byteOf by lia.
    replace (Z.to_N b0 <? 128)%N with false by (symmetry; apply N.ltb_ge; lia).
    replace (Z.to_N b0 <=? 223)%N with false by (symmetry; apply N.leb_gt; lia).
    rewrite andb_false_r.
    replace (224 <=? Z.to_N b0)%N with true by (symmetry; apply N.leb_le; lia).
    replace (Z.to_N b0 <=? 239)%N with true by (symmetry; apply N.leb_le; lia).
    replace (128 <=? Z.to_N b2)%N with true by (symmetry; apply N.leb_le; lia).
    replace (Z.to_N b2 <=? 191)%N with true by (symmetry; apply N.leb_le; lia).
    cbv zeta. cbn [andb].
    destruct (N.eqb_spec (Z.to_N b0) 224) as [E1|E1];
      destruct (N.eqb_spec (Z.to_N b0) 237) as [E2|E2];
      match goal with
      | |- context [(?lo <=? Z.to_N b1)%N] =>
          replace (lo <=? Z.to_N b1)%N with true by (symmetry; apply N.leb_le; lia)
      end;
      match goal with
      | |- context [(Z.to_N b1 <=? ?hi)%N] =>
          replace (Z.to_N b1 <=? hi)%N with true by (symmetry; apply N.leb_le; lia)
      end; reflexivity. }
  rewrite Hl. reflexivity.
Qed.

Lemma count_four b0 b1 b2 b3 :
  240 <= b0 <= 244 -> 128 <= b1 <= 191 -> 128 <= b2 <= 191 -> 128 <= b3 <= 191 ->
  (b0 = 240 -> 144 <= b1) -> (b0 = 244 -> b1 <= 143) ->
  utf8.countFrom 0
    (String (utf8.byteOf b0)
       (String (utf8.byteOf b1) (String (utf8.byteOf b2) (String (utf8.byteOf b3) ""))))
  = 1%nat.
Proof.
  intros H0 H1 H2 H3 Hlo Hhi. cbn [utf8.countFrom].
  assert (Hl : utf8.runeLen
                 (String (utf8.byteOf b0)
                    (String (utf8.byteOf b1)
                       (String (utf8.byteOf b2) (String (utf8.byteOf b3) "")))) = 4%nat).
  { unfold utf8.runeLen, utf8.cont, utf8.between. rewrite !byte_byteOf by lia.
    replace (Z.to_N b0 <? 128)%N with false by (symmetry; apply N.ltb_ge; lia).
    replace (Z.to_N b0 <=? 223)%N with false by (symmetry; apply N.leb_gt; lia).
    rewrite andb_false_r.
    replace (Z.to_N b0 <=? 239)%N with false by (symmetry; apply N.leb_gt; lia).
    rewrite andb_false_r.
    replace (240 <=? Z.to_N b0)%N with true by (symmetry; apply N.leb_le; lia).
    replace (Z.to_N b0 <=? 244)%N with true by (symmetry; apply N.leb_le; lia).
    replace (128 <=? Z.to_N b2)%N with true by (symmetry; apply N.leb_le; lia).
    replace (Z.to_N b2 <=? 191)%N with true by (symmetry; apply N.leb_le; lia).
    replace (128 <=? Z.to_N b3)%N with true by (symmetry; apply N.leb_le; lia).
    replace (Z.to_N b3 <=? 191)%N with true by (symmetry; apply N.leb_le; lia).
    cbv zeta. cbn [andb].
    destruct (N.eqb_spec (Z.to_N b0) 240) as [E1|E1];
      destruct (N.eqb_spec (Z.to_N b0) 244) as [E2|E2];
      match goal with
      | |- context [(?lo <=? Z.to_N b1)%N] =>
          replace (lo <=? Z.to_N b1)%N with true by (symmetry; apply N.leb_le; lia)
      end;
      match goal with
      | |- context [(Z.to_N b1 <=? ?hi)%N] =>
          replace (Z.to_N b1 <=? hi)%N with true by (symmetry; apply N.leb_le; lia)
      end; reflexivity. }
  rewrite Hl. reflexivity.
Qed.

Lemma EncodeRune_one_rune r : utf8.countFrom 0 (utf8.EncodeRune r) = 1%nat.
Proof.
  unfold utf8.EncodeRune.
  destruct (Z.ltb_spec r 0); [reflexivity|].
  destruct (Z.ltb_spec 1114111 r); [reflexivity|].
  cbn [orb].
  destruct (Z.leb_spec 55296 r); destruct (Z.leb_spec r 57343); cbn [andb];
    try reflexivity;
    (destruct (Z.ltb_spec r 128); [apply count_one|];
     destruct (Z.ltb_spec r 2048);
       [apply count_two; Z.div_mod_to_equations; lia|];
     destruct (Z.ltb_spec r 65536);
       [apply count_three; Z.div_mod_to_equations; lia
       |apply count_four; Z.div_mod_to_equations; lia]).
Qed.

Lemma RuneCount_short_prefix r :
  utf8.RuneCountInString ("-" +++ fmt.verbC r +++ ", ") = 4.
Proof.
  unfold utf8.RuneCountInString, fmt.verbC. cbn [String.append utf8.countFrom].
  change (utf8.runeLen (String "-" (utf8.EncodeRune r +++ ", "))) with 1%nat.
  cbn [Nat.pred].
  rewrite countFrom_app; [|lia|reflexivity].
  rewrite EncodeRune_one_rune. reflexivity.
Qed.

(** X17. The short form of a flag and the column of the long names. A flag
    with a short form is shown as [-c, --name] and its value suffix, whatever
    the alignment boolean; what stands before [--name] counts four runes,
    for any short rune, as many as the four spaces that a flag without a
    short form gets when some flag has one: in a table with a short flag
    all long names start in the same column. *)
Theorem formatFlag_short_form (haveShort : bool) (flag : Flag.t) :
  Flag.Short flag <> 0 ->
  formatFlag haveShort flag
  = ("-" +++ fmt.verbC (Flag.Short flag) +++ ", ")
    +++ "--" +++ Flag.Name flag +++ valueSuffix flag
  /\ utf8.RuneCountInString ("-" +++ fmt.verbC (Flag.Short flag) +++ ", ") = 4
  /\ utf8.RuneCountInString "    " = 4.
Proof.
  intros Hs. split; [|split; [apply RuneCount_short_prefix|reflexivity]].
  unfold formatFlag, valueSuffix.
  replace (Flag.Short flag =? 0) with false by (symmetry; now apply Z.eqb_neq).
  cbn [negb String.append].
  destruct (Flag.IsBool flag); cbn [negb];
    rewrite ?append_assoc, ?append_empty_r; cbn [String.append]; reflexivity.
Qed.

Lemma formatFlag_short_form_witness :
  formatFlag false verboseFlag
  = ("-" +++ fmt.verbC (Flag.Short verboseFlag) +++ ", ")
    +++ "--" +++ Flag.Name verboseFlag +++ valueSuffix verboseFlag.
Proof.
  assert (Hs : Flag.Short verboseFlag <> 0) by (vm_compute; discriminate).
  exact (proj1 (formatFlag_short_form false verboseFlag Hs)).
Defined.

(** ** The argument table *)

(** X18. The [Arguments:] section. With summary off, a node with positional
    arguments gets, after its help text, an empty line, the [Arguments:]
    header and what the two-column layout prints, one level deeper, for the
    rows made of the summary and the help of each positional in order, at
    least one line for each; a node without positionals gets no such
    section. *)
Theorem arguments_section
    (ToText : string -> string -> string -> Z -> string) (w : helpWriter)
    (node : Node.t) (lines : list string) :
  HelpPrinterOptions.Summary (options w) = false ->
  exists help table rest,
    Wrap ToText w (Node.Help node) [] = Some (tt, help)
    /\ writeTwoColumns ToText (Indent w) defaultColumnPadding
         (map (fun arg => (Positional.Summary arg, Positional.Help arg))
              (Node.Positional node)) []
       = Some (tt, table)
    /\ (List.length (Node.Positional node) <= List.length table)%nat
    /\ printNodeDetail ToText w node lines
       = Some (tt, lines
                   ++ (if String.eqb (Node.Help node) "" then [] else lineOf w "" :: help)
                   ++ match Node.Positional node with
                      | [] => []
                      | _ => lineOf w "" :: lineOf w "Arguments:" :: table
                      end
                   ++ rest).
Proof.
  intros Hs.
  exists (wrapLines ToText w (Node.Help node)).
  exists (tableLines ToText (Indent w) defaultColumnPadding
            (map (fun arg => (Positional.Summary arg, Positional.Help arg))
                 (Node.Positional node))).
  exists (flagsBlock ToText w node ++ commandsBlock ToText w node).
  split; [now rewrite appends_Wrap|]. split; [now rewrite appends_writeTwoColumns|].
  split.
  - unfold tableLines.
    set (f := rowLines ToText (Indent w) defaultColumnPadding _ _).
    assert (Hf : forall r, f r <> []) by (intros r; apply rowLines_nonempty).
    clearbody f.
    induction (Node.Positional node) as [|a args IH]; [cbn; lia|].
    cbn [map flat_map List.length]. rewrite length_app.
    specialize (Hf (Positional.Summary a, Positional.Help a)).
    destruct (f (Positional.Summary a, Positional.Help a)); [now elim Hf|].
    cbn [List.length]. lia.
  - rewrite appends_printNodeDetail. unfold detailLines, helpBlock, argumentsBlock.
    rewrite Hs. destruct (Node.Positional node); reflexivity.
Qed.

Lemma arguments_section_witness :
  exists rest,
    printNodeDetail doc.ToText (mkHelpWriter "" 80 (HelpPrinterOptions.mk false false))
      copyNode ["Usage:  cp <src> <dst> [flags]"]
    = Some (tt, ["Usage:  cp <src> <dst> [flags]"; ""; "Copies a file."; "";
                 "Arguments:"; "  <src>    file to read"; "  <dst>    where to write it"]
                ++ rest).
Proof.
  destruct (arguments_section doc.ToText
              (mkHelpWriter "" 80 (HelpPrinterOptions.mk false false))
              copyNode ["Usage:  cp <src> <dst> [flags]"] eq_refl)
    as [help [table [rest [Hhelp [Htable [_ Hdetail]]]]]].
  exists rest.
  vm_compute in Hhelp. injection Hhelp as Hhelp.
  vm_compute in Htable. injection Htable as Htable.
  rewrite Hdetail, <- Hhelp, <- Htable. reflexivity.
Defined.
